(** * The resume upload page script (static/js/main.js), embedded in Rocq

    The script validates the selected file, posts it to [/upload], and
    renders the JSON answer (an analysis of the resume and a list of course
    recommendations) into the page.

    Strings are sequences of UTF-16 code units, as in the language the
    script is written in.  The page is an explicit record of the regions the
    script touches; a function of the script is a state transformer over it
    that may raise an exception and keeps the mutations done before the
    exception, which is what the [try]/[catch] of the submit handler sees. *)

From Stdlib Require Import List ZArith NArith QArith Qround String Ascii Lia Lqa Bool.
Import ListNotations.

Local Open Scope Z_scope.
Set Warnings "-register-all".

(** [lia] on divisions and remainders by a constant. *)
Ltac Zify.zify_post_hook ::= Z.to_euclidean_division_equations.

(** ** Strings *)

Abbreviation jschar := N (only parsing).
Abbreviation jsstring := (list N) (only parsing).

(** A string literal of the script whose characters are all ASCII. *)
Definition lit (s : string) : jsstring :=
  map N_of_ascii (list_ascii_of_string s).

Fixpoint str_eqb (a b : jsstring) : bool :=
  match a, b with
  | [], [] => true
  | x :: a', y :: b' => N.eqb x y && str_eqb a' b'
  | _, _ => false
  end.

(** [Array.prototype.includes] on an array of strings. *)
Definition includes (l : list jsstring) (x : jsstring) : bool :=
  existsb (str_eqb x) l.

(** [s.replace(pat, by)] with a one-character string pattern: only the first
    occurrence is replaced. *)
Fixpoint replace (pat : jschar) (by_ : jsstring) (s : jsstring) : jsstring :=
  match s with
  | [] => []
  | c :: r => if N.eqb c pat then by_ ++ r else c :: replace pat by_ r
  end.

(** [s.replace(/c/g, by)] for a one-character pattern: every occurrence. *)
Fixpoint replace_g (pat : jschar) (by_ : jsstring) (s : jsstring) : jsstring :=
  match s with
  | [] => []
  | c :: r => if N.eqb c pat then by_ ++ replace_g pat by_ r
              else c :: replace_g pat by_ r
  end.

(** [toUpperCase] on the ASCII letters.  Code units outside ASCII are left
    as they are: the host's Unicode case mapping is outside this model. *)
Definition upper_char (c : jschar) : jschar :=
  if (N.leb 97 c && N.leb c 122)%bool then (c - 32)%N else c.

Definition toUpperCase (s : jsstring) : jsstring := map upper_char s.

Definition underscore : jschar := 95%N.
Definition space : jschar := 32%N.
Definition apostrophe : jschar := 39%N.
Definition dquote : jschar := 34%N.
Definition comma : jschar := 44%N.
Definition star : jschar := 11088%N.   (* U+2B50, one code unit *)

(** ** Exceptions and the state monad of the page *)

Inductive exn := TypeError | RangeError | SyntaxError.

Inductive outcome (A : Type) :=
| Normal (a : A)
| Throw (e : exn).
Arguments Normal {A} a.
Arguments Throw {A} e.

(** ** Numbers *)

(** Decimal digits of a natural number, most significant first.  The fuel is
    the number of bits of [n], which is at least its number of digits. *)
Fixpoint digits_aux (fuel : nat) (n : N) (acc : jsstring) : jsstring :=
  match fuel with
  | O => acc
  | S f =>
      let acc' := (48 + n mod 10)%N :: acc in
      if N.eqb (n / 10) 0 then acc' else digits_aux f (n / 10)%N acc'
  end.

Definition digits (n : N) : jsstring :=
  digits_aux (S (N.to_nat (N.size n))) n [].

(** An integer reaches the script as a floating-point number: below [2^53]
    as itself, above as the nearest number with 53 significant bits (the
    even one on a tie). *)
Definition two53 : Z := 9007199254740992.

Definition nearest_double (x : Z) : Z :=
  if x <? two53 then x
  else
    let e := Z.log2 x - 52 in
    let q := x / 2 ^ e in
    let r := x mod 2 ^ e in
    let half := 2 ^ (e - 1) in
    if ((half <? r) || ((r =? half) && Z.odd q))%bool
    then (q + 1) * 2 ^ e else q * 2 ^ e.

(** The decimal with the fewest significant digits that reads back as the
    number [v]: the two multiples of [10^j] next to [v] are tried, for [j]
    from the order of the first digit of [v] downwards, and the nearer one
    is taken when both read back as [v]. *)
Fixpoint shortest_from (fuel : nat) (j : Z) (v : Z) : Z :=
  match fuel with
  | O => v
  | S f =>
      let lo := v / 10 ^ j * 10 ^ j in
      let hi := lo + 10 ^ j in
      let lo_ok := nearest_double lo =? v in
      let hi_ok := nearest_double hi =? v in
      if (lo_ok && hi_ok)%bool then (if v - lo <=? hi - v then lo else hi)
      else if lo_ok then lo
      else if hi_ok then hi
      else shortest_from f (j - 1) v
  end.

Definition shortest (v : Z) : Z :=
  let d := List.length (digits (Z.to_N v)) in
  shortest_from d (Z.of_nat d - 1) v.

Fixpoint drop_zeros (s : jsstring) : jsstring :=
  match s with
  | 48%N :: r => drop_zeros r
  | _ => s
  end.

(** The exponent notation of a number of more than 21 digits, given the
    digits [ds] of its shortest decimal: [d.ddde+n]. *)
Definition exponent_form (ds : jsstring) : jsstring :=
  let e := digits (N.of_nat (List.length ds - 1)) in
  match rev (drop_zeros (rev ds)) with
  | [] => ds
  | [d] => d :: lit "e+" ++ e
  | d :: more => d :: 46%N :: more ++ lit "e+" ++ e
  end.

(** The text of the number that the integer [x >= 0] is in the script:
    every digit below [2^53]; above, the shortest decimal that reads back
    as the number, in exponent notation from [10^21] on. *)
Definition number_text (x : Z) : jsstring :=
  if x <? two53 then digits (Z.to_N x)
  else
    let v := nearest_double x in
    if 2 ^ 1024 <=? v then lit "Infinity"
    else
      let ds := digits (Z.to_N (shortest v)) in
      if (List.length ds <=? 21)%nat then ds else exponent_form ds.

(** [Number.prototype.toString] on the number that the integer [z] is in
    the script. *)
Definition toString (z : Z) : jsstring :=
  if z <? 0 then 45%N :: number_text (- z) else number_text z.

(** [String.prototype.repeat]: a negative count is a RangeError.  (A host
    also refuses a result longer than its longest string; the ratings of
    the data model, at most 5, are far below that.) *)
Definition repeat_str (s : jsstring) (count : Z) : outcome jsstring :=
  if count <? 0 then Throw RangeError
  else Normal (List.concat (List.repeat s (Z.to_nat count))).

Module Math.
(** [Math.floor] on a finite number, given by its exact rational value. *)
Definition floor (x : Q) : Z := Qfloor x.
End Math.

(** [x % 1] on a finite number: the remainder has the sign of [x] (the
    quotient is truncated).  The operation is exact on floating-point
    numbers, so it is the same on their rational values. *)
Definition rem1 (x : Q) : Q :=
  Qmake (Z.rem (Qnum x) (Zpos (Qden x))) (Qden x).

(** ** JSON values and [JSON.parse] *)

Module JSON.

Inductive value :=
| Null
| Bool (b : bool)
| Num (lexeme : jsstring)   (* the number token as written *)
| Str (s : jsstring)
| Arr (elems : list value)
| Obj (members : list (jsstring * value)).

Inductive presult (A : Type) :=
| Ok (a : A) (rest : jsstring)
| Bad                        (* SyntaxError *)
| OutOfFuel.
Arguments Ok {A} a rest.
Arguments Bad {A}.
Arguments OutOfFuel {A}.

Definition is_ws (c : jschar) : bool :=
  (N.eqb c 9 || N.eqb c 10 || N.eqb c 13 || N.eqb c 32)%bool.

Fixpoint skip_ws (s : jsstring) : jsstring :=
  match s with
  | c :: r => if is_ws c then skip_ws r else s
  | [] => []
  end.

Definition is_digit (c : jschar) : bool := (N.leb 48 c && N.leb c 57)%bool.

Definition hex_val (c : jschar) : option N :=
  if (N.leb 48 c && N.leb c 57)%bool then Some (c - 48)%N
  else if (N.leb 65 c && N.leb c 70)%bool then Some (c - 55)%N
  else if (N.leb 97 c && N.leb c 102)%bool then Some (c - 87)%N
  else None.

(** The one-character escapes of a JSON string: quote, solidus, reverse
    solidus, b, f, n, r, t. *)
Definition escape (c : jschar) : option jschar :=
  if N.eqb c 34 then Some 34%N
  else if N.eqb c 47 then Some 47%N
  else if N.eqb c 92 then Some 92%N
  else if N.eqb c 98 then Some 8%N
  else if N.eqb c 102 then Some 12%N
  else if N.eqb c 110 then Some 10%N
  else if N.eqb c 114 then Some 13%N
  else if N.eqb c 116 then Some 9%N
  else None.

(** The characters of a string after its opening quote, up to and
    including the closing quote. *)
Fixpoint string_body (s : jsstring) : option (jsstring * jsstring) :=
  match s with
  | [] => None
  | c :: r =>
      if N.eqb c 34 then Some ([], r)
      else if N.eqb c 92 then
        match r with
        | [] => None
        | e :: r' =>
            if N.eqb e 117 then
              match r' with
              | h1 :: h2 :: h3 :: h4 :: r'' =>
                  match hex_val h1, hex_val h2, hex_val h3, hex_val h4 with
                  | Some a, Some b, Some c', Some d =>
                      match string_body r'' with
                      | Some (t, rest) =>
                          Some ((a * 4096 + b * 256 + c' * 16 + d)%N :: t, rest)
                      | None => None
                      end
                  | _, _, _, _ => None
                  end
              | _ => None
              end
            else
              match escape e with
              | Some x =>
                  match string_body r' with
                  | Some (t, rest) => Some (x :: t, rest)
                  | None => None
                  end
              | None => None
              end
        end
      else if N.ltb c 32 then None
      else
        match string_body r with
        | Some (t, rest) => Some (c :: t, rest)
        | None => None
        end
  end.

(** The longest prefix of digits, and what follows it. *)
Fixpoint span_digits (s : jsstring) : jsstring * jsstring :=
  match s with
  | c :: r =>
      if is_digit c then let (d, rest) := span_digits r in (c :: d, rest)
      else ([], s)
  | [] => ([], [])
  end.

(** int: [0], or a non-zero digit followed by digits. *)
Definition number_int (s : jsstring) : option (jsstring * jsstring) :=
  match s with
  | c :: r =>
      if N.eqb c 48 then Some ([c], r)
      else if is_digit c then let (d, rest) := span_digits r in Some (c :: d, rest)
      else None
  | [] => None
  end.

(** frac: optionally, a point followed by at least one digit. *)
Definition number_frac (s : jsstring) : option (jsstring * jsstring) :=
  match s with
  | c :: r =>
      if N.eqb c 46 then
        match span_digits r with
        | ([], _) => None
        | (d, rest) => Some (c :: d, rest)
        end
      else Some ([], s)
  | [] => Some ([], [])
  end.

(** exp: optionally, e or E, an optional sign, at least one digit. *)
Definition number_exp (s : jsstring) : option (jsstring * jsstring) :=
  match s with
  | c :: r =>
      if (N.eqb c 101 || N.eqb c 69)%bool then
        let (sign, r1) :=
          match r with
          | x :: r' => if (N.eqb x 43 || N.eqb x 45)%bool then ([x], r') else ([], r)
          | [] => ([], r)
          end in
        match span_digits r1 with
        | ([], _) => None
        | (d, rest) => Some (c :: sign ++ d, rest)
        end
      else Some ([], s)
  | [] => Some ([], [])
  end.

Definition number (s : jsstring) : option (jsstring * jsstring) :=
  let (minus, s1) :=
    match s with
    | c :: r => if N.eqb c 45 then ([c], r) else ([], s)
    | [] => ([], s)
    end in
  match number_int s1 with
  | None => None
  | Some (i, s2) =>
      match number_frac s2 with
      | None => None
      | Some (f, s3) =>
          match number_exp s3 with
          | None => None
          | Some (e, s4) => Some (minus ++ i ++ f ++ e, s4)
          end
      end
  end.

(** [s] starts with the word [w]: what follows it. *)
Fixpoint strip_prefix (w s : jsstring) : option jsstring :=
  match w, s with
  | [], _ => Some s
  | x :: w', y :: s' => if N.eqb x y then strip_prefix w' s' else None
  | _ :: _, [] => None
  end.

(** Recursive descent on the JSON grammar.  Every call on a value, on the
    rest of an array or on the rest of an object takes one unit of fuel. *)
Fixpoint parse_value (fuel : nat) (s : jsstring) : presult value :=
  match fuel with
  | O => OutOfFuel
  | S f =>
      match s with
      | [] => Bad
      | c :: r =>
          if N.eqb c 123 then                       (* { *)
            match skip_ws r with
            | c' :: r' =>
                if N.eqb c' 125 then Ok (Obj []) r'
                else
                  match parse_members f (skip_ws r) with
                  | Ok m rest => Ok (Obj m) rest
                  | Bad => Bad
                  | OutOfFuel => OutOfFuel
                  end
            | [] => Bad
            end
          else if N.eqb c 91 then                   (* [ *)
            match skip_ws r with
            | c' :: r' =>
                if N.eqb c' 93 then Ok (Arr []) r'
                else
                  match parse_elements f (skip_ws r) with
                  | Ok l rest => Ok (Arr l) rest
                  | Bad => Bad
                  | OutOfFuel => OutOfFuel
                  end
            | [] => Bad
            end
          else if N.eqb c 34 then                   (* string *)
            match string_body r with
            | Some (t, rest) => Ok (Str t) rest
            | None => Bad
            end
          else if N.eqb c 116 then                  (* true *)
            match strip_prefix (lit "true") s with
            | Some rest => Ok (Bool true) rest
            | None => Bad
            end
          else if N.eqb c 102 then                  (* false *)
            match strip_prefix (lit "false") s with
            | Some rest => Ok (Bool false) rest
            | None => Bad
            end
          else if N.eqb c 110 then                  (* null *)
            match strip_prefix (lit "null") s with
            | Some rest => Ok Null rest
            | None => Bad
            end
          else
            match number s with
            | Some (lx, rest) => Ok (Num lx) rest
            | None => Bad
            end
      end
  end

(** The elements of an array from the first one (leading white space
    skipped), up to and including the closing bracket. *)
with parse_elements (fuel : nat) (s : jsstring) : presult (list value) :=
  match fuel with
  | O => OutOfFuel
  | S f =>
      match parse_value f s with
      | Ok v rest =>
          match skip_ws rest with
          | c :: r =>
              if N.eqb c 93 then Ok [v] r
              else if N.eqb c 44 then
                match parse_elements f (skip_ws r) with
                | Ok l rest' => Ok (v :: l) rest'
                | Bad => Bad
                | OutOfFuel => OutOfFuel
                end
              else Bad
          | [] => Bad
          end
      | Bad => Bad
      | OutOfFuel => OutOfFuel
      end
  end

(** The members of an object from the first one (leading white space
    skipped), up to and including the closing brace. *)
with parse_members (fuel : nat) (s : jsstring)
  : presult (list (jsstring * value)) :=
  match fuel with
  | O => OutOfFuel
  | S f =>
      match s with
      | c :: r =>
          if N.eqb c 34 then
            match string_body r with
            | Some (k, rest) =>
                match skip_ws rest with
                | c1 :: r1 =>
                    if N.eqb c1 58 then
                      match parse_value f (skip_ws r1) with
                      | Ok v rest1 =>
                          match skip_ws rest1 with
                          | c2 :: r2 =>
                              if N.eqb c2 125 then Ok [(k, v)] r2
                              else if N.eqb c2 44 then
                                match parse_members f (skip_ws r2) with
                                | Ok m rest2 => Ok ((k, v) :: m) rest2
                                | Bad => Bad
                                | OutOfFuel => OutOfFuel
                                end
                              else Bad
                          | [] => Bad
                          end
                      | Bad => Bad
                      | OutOfFuel => OutOfFuel
                      end
                    else Bad
                | [] => Bad
                end
            | None => Bad
            end
          else Bad
      | [] => Bad
      end
  end.

(** A whole text: one value between white space, and nothing after. *)
Definition parse_text (fuel : nat) (text : jsstring) : presult value :=
  match parse_value fuel (skip_ws text) with
  | Ok v rest =>
      match skip_ws rest with
      | [] => Ok v []
      | _ :: _ => Bad
      end
  | Bad => Bad
  | OutOfFuel => OutOfFuel
  end.

Definition fuel_for (text : jsstring) : nat := 2 * List.length text + 2.

(** [JSON.parse(text)]: the value, or a SyntaxError.  The fuel given is
    enough for every text (lemma [JSON_parse_fuel]). *)
Definition parse (text : jsstring) : outcome value :=
  match parse_text (fuel_for text) text with
  | Ok v _ => Normal v
  | _ => Throw SyntaxError
  end.

End JSON.

(** [formatNumber]'s regular expression, [/\B(?=(\d{3})+(?!\d))/g].

    A word character is a letter, a digit or the underscore. *)
Definition is_word (c : jschar) : bool :=
  (JSON.is_digit c
   || (N.leb 65 c && N.leb c 90)
   || (N.leb 97 c && N.leb c 122)
   || N.eqb c 95)%bool.

Definition word_at (c : option jschar) : bool :=
  match c with Some x => is_word x | None => false end.

Definition starts_with_digit (s : jsstring) : bool :=
  match s with c :: _ => JSON.is_digit c | [] => false end.

(** The lookahead [(?=(\d{3})+(?!\d))] at the head of [s]: one or more
    groups of three digits, after which there is no digit. *)
Fixpoint lookahead (s : jsstring) : bool :=
  match s with
  | a :: b :: c :: rest =>
      (JSON.is_digit a && JSON.is_digit b && JSON.is_digit c
       && (lookahead rest || negb (starts_with_digit rest)))%bool
  | _ => false
  end.

(** The whole pattern at the position between [prev] and the head of [s]:
    [\B] holds when both sides are word characters or neither is. *)
Definition matches_here (prev : option jschar) (s : jsstring) : bool :=
  (Bool.eqb (word_at prev) (word_at (hd_error s)) && lookahead s)%bool.

(** [s.replace(/\B(?=(\d{3})+(?!\d))/g, ",")]: the pattern matches the empty
    string, so every position is tried once, from left to right, and a comma
    is inserted where it matches. *)
Fixpoint insert_commas (prev : option jschar) (s : jsstring) : jsstring :=
  (if matches_here prev s then [comma] else [])
  ++ match s with
     | [] => []
     | c :: r => c :: insert_commas (Some c) r
     end.

(** [function formatNumber(num)] *)
Definition formatNumber (num : Z) : jsstring :=
  insert_commas None (toString num).

(** [x.toFixed(1)] for [0 <= x < 10^21]: the integer [n] nearest to [10 x]
    (the larger one on a tie), printed with a point before its last digit. *)
Definition toFixed1 (x : Q) : jsstring :=
  let n := Qfloor (x * 10 + (1 # 2)) in
  digits (Z.to_N (n / 10)) ++ 46%N :: digits (Z.to_N (n mod 10)).

(** ** The data model: what the server sends *)

Record File := {
  file_name : jsstring;
  file_size : Z;
  file_type : jsstring
}.

Record AnalysisResult := {
  experience_level : jsstring;
  skill_count : Z;
  domains : option (list jsstring);
  skills : option (list jsstring)
}.

(** The [sources] of a recommendation: a sequence of addresses, or a string. *)
Inductive SourcesField :=
| SourcesSeq (l : list jsstring)
| SourcesStr (s : jsstring).

Record Recommendation := {
  course_name : jsstring;
  instructor : jsstring;
  platform : jsstring;
  match_percentage : Z;
  rating : option Q;
  is_paid : jsstring;
  enrolled : option Z;
  match_reasons : option (list jsstring);
  sources : option SourcesField
}.

(** A field that the payload may leave out is an [option]: [None] is the
    [undefined] that reading the missing property gives. *)
Record UploadResponse := {
  success : option bool;
  analysis : option AnalysisResult;
  recommendations : option (list Recommendation);
  error : option jsstring
}.

(** What [fetch] and [response.json()] give the submit handler. *)
Inductive FetchOutcome :=
| FetchRejects                                        (* the request throws *)
| Responds (ok : bool) (body : option UploadResponse) (* [None]: not JSON *).

(** ** The page *)

Inductive ElemId :=
| uploadForm | resumeFile | fileName | uploadBtn | uploadSection
| loadingContainer | errorContainer | errorMessage | resultsSection
| experienceLevel | skillCount | domainsList | skillsList
| recCount | recommendationsList.

Definition ElemId_eqb (a b : ElemId) : bool :=
  match a, b with
  | uploadForm, uploadForm | resumeFile, resumeFile | fileName, fileName
  | uploadBtn, uploadBtn | uploadSection, uploadSection
  | loadingContainer, loadingContainer | errorContainer, errorContainer
  | errorMessage, errorMessage | resultsSection, resultsSection
  | experienceLevel, experienceLevel | skillCount, skillCount
  | domainsList, domainsList | skillsList, skillsList
  | recCount, recCount | recommendationsList, recommendationsList => true
  | _, _ => false
  end.

(** A course card: the strings that [createCourseCard] puts in the holes of
    the template that it assigns to [innerHTML], in the order of the
    template, as they are before the host reads the markup.  The animation
    delay of the card is presentation only and is left out. *)
Record Card := {
  card_title : jsstring;
  card_instructor : jsstring;
  card_match : jsstring;
  card_stars : jsstring;
  card_rating : jsstring;
  card_platform : jsstring;
  card_paid_icon : bool;                  (* [is_paid === 'Paid'] *)
  card_is_paid : jsstring;
  card_enrolled : option jsstring;        (* shown when [enrolled > 0] *)
  card_reasons : option (list jsstring);  (* the "Why this course?" block *)
  card_link : option jsstring             (* [sourceLinks], see below *)
}.

Inductive Node :=
| Tag (className : jsstring) (textContent : jsstring)
      (style : list (jsstring * jsstring))             (* a [span] *)
| Paragraph (style : jsstring) (textContent : jsstring)
| CourseCard (c : Card).

Record Element := {
  display : jsstring;        (* [style.display] *)
  text : jsstring;           (* [textContent] *)
  children : list Node       (* what [innerHTML] and [appendChild] build *)
}.

Record Request := {
  req_url : jsstring;
  req_method : jsstring;
  req_body : list (jsstring * File)
}.

Inductive Scroll := ScrollTop | ScrollIntoView (e : ElemId).

Record Page := {
  elem : ElemId -> Element;
  files : option (list File);      (* [resumeFile.files] *)
  fetched : list Request;          (* the calls of [fetch], latest first *)
  scrolled : option Scroll
}.

Definition M (A : Type) : Type := Page -> outcome A * Page.

Definition ret {A} (a : A) : M A := fun p => (Normal a, p).

Definition bind {A B} (m : M A) (k : A -> M B) : M B :=
  fun p =>
    match m p with
    | (Normal a, p') => k a p'
    | (Throw e, p') => (Throw e, p')
    end.

Definition throw {A} (e : exn) : M A := fun p => (Throw e, p).

Definition try_catch {A} (m : M A) (h : exn -> M A) : M A :=
  fun p =>
    match m p with
    | (Normal a, p') => (Normal a, p')
    | (Throw e, p') => h e p'
    end.

Definition lift {A} (o : outcome A) : M A := fun p => (o, p).

Declare Scope page_scope.
Delimit Scope page_scope with page.
Notation "x <- m ;; k" := (bind m (fun x => k))
  (at level 61, m at next level, right associativity) : page_scope.
Notation "m ;; k" := (bind m (fun _ => k))
  (at level 61, right associativity) : page_scope.
Local Open Scope page_scope.

Definition update (p : Page) (i : ElemId) (f : Element -> Element) : Page :=
  {| elem := fun j => if ElemId_eqb j i then f (elem p j) else elem p j;
     files := files p; fetched := fetched p; scrolled := scrolled p |}.

(** [i.style.display = v] *)
Definition set_display (i : ElemId) (v : jsstring) : M unit :=
  fun p => (Normal tt,
            update p i (fun e => {| display := v; text := text e;
                                    children := children e |})).

(** [i.textContent = v] *)
Definition set_text (i : ElemId) (v : jsstring) : M unit :=
  fun p => (Normal tt,
            update p i (fun e => {| display := display e; text := v;
                                    children := children e |})).

(** [i.innerHTML = ...], given the nodes that the markup denotes *)
Definition set_children (i : ElemId) (l : list Node) : M unit :=
  fun p => (Normal tt,
            update p i (fun e => {| display := display e; text := text e;
                                    children := l |})).

(** [i.appendChild(n)] *)
Definition appendChild (i : ElemId) (n : Node) : M unit :=
  fun p => (Normal tt,
            update p i (fun e => {| display := display e; text := text e;
                                    children := children e ++ [n] |})).

Definition scroll (s : Scroll) : M unit :=
  fun p => (Normal tt,
            {| elem := elem p; files := files p; fetched := fetched p;
               scrolled := Some s |}).

(** Reading a property of a value that may be [undefined]. *)
Definition prop {A} (o : option A) : M A :=
  match o with Some a => ret a | None => throw TypeError end.

(** [l.forEach((x, index) => body)] *)
Fixpoint forEach_from {A} (index : Z) (l : list A) (body : A -> Z -> M unit)
  : M unit :=
  match l with
  | [] => ret tt
  | x :: r => body x index ;; forEach_from (index + 1) r body
  end.

Definition forEach {A} (l : list A) (body : A -> Z -> M unit) : M unit :=
  forEach_from 0 l body.

(** ** The script *)

Definition none_ : jsstring := lit "none".
Definition block : jsstring := lit "block".

(** [resumeFile.addEventListener('change', ...)] *)
Definition onChange : M unit :=
  fun p =>
    match files p with
    | Some (f :: _) => set_text fileName (file_name f) p
    | _ => set_text fileName (lit "Choose File") p
    end.

(** [function showLoading()] *)
Definition showLoading : M unit :=
  set_display uploadSection none_ ;;
  set_display errorContainer none_ ;;
  set_display resultsSection none_ ;;
  set_display loadingContainer block.

(** [function showError(message)] *)
Definition showError (message : jsstring) : M unit :=
  set_display uploadSection none_ ;;
  set_display loadingContainer none_ ;;
  set_display resultsSection none_ ;;
  set_display errorContainer block ;;
  set_text errorMessage message.

(** The tag of one domain, [domain.replace('_', ' ').toUpperCase()]. *)
Definition domain_tag (domain : jsstring) : Node :=
  Tag (lit "domain-tag") (toUpperCase (replace underscore [space] domain)) [].

Definition skill_tag (skill : jsstring) : Node :=
  Tag (lit "skill-tag") skill [].

Definition more_tag (n : Z) : Node :=
  Tag (lit "skill-tag") (lit "+" ++ toString n ++ lit " more")
      [(lit "background", lit "#667eea"); (lit "color", lit "white")].

(** The domains of [displayAnalysis]:
    [if (analysis.domains && analysis.domains.length > 0) ... else ...] *)
Definition domains_block (ds : option (list jsstring)) : M unit :=
  match ds with
  | Some ((_ :: _) as l) =>
      forEach l (fun domain _ => appendChild domainsList (domain_tag domain))
  | _ =>
      set_children domainsList [Tag (lit "domain-tag") (lit "General") []]
  end.

(** The skills of [displayAnalysis]:
    [if (analysis.skills && analysis.skills.length > 0) ... else ...] *)
Definition skills_block (ss : option (list jsstring)) : M unit :=
  match ss with
  | Some ((_ :: _) as l) =>
      forEach (firstn 10 l)
              (fun skill _ => appendChild skillsList (skill_tag skill)) ;;
      if Z.of_nat (List.length l) >? 10
      then appendChild skillsList (more_tag (Z.of_nat (List.length l) - 10))
      else ret tt
  | _ =>
      set_children skillsList
        [Tag (lit "skill-tag") (lit "No specific skills identified") []]
  end.

(** [function displayAnalysis(analysis)] *)
Definition displayAnalysis (analysis : option AnalysisResult) : M unit :=
  a <- prop analysis ;;
  set_text experienceLevel (experience_level a) ;;
  set_text skillCount (toString (skill_count a)) ;;
  set_children domainsList [] ;;
  domains_block (domains a) ;;
  set_children skillsList [] ;;
  skills_block (skills a).

(** [course.rating || 0] *)
Definition rating_or_zero (r : option Q) : Q :=
  match r with
  | Some x => if Qeq_bool x 0 then 0%Q else x
  | None => 0%Q
  end.

(** The stars of a rating:
    ['⭐'.repeat(Math.floor(rating)) + (rating % 1 >= 0.5 ? '⭐' : '')] *)
Definition stars_of (rating : Q) : outcome jsstring :=
  match repeat_str [star] (Math.floor rating) with
  | Normal full =>
      Normal (full ++ (if Qle_bool (1 # 2) (rem1 rating) then [star] else []))
  | Throw e => Throw e
  end.

(** [name="value"], as the template of the link writes an attribute. *)
Definition attr (name : string) (value : jsstring) : jsstring :=
  lit name ++ lit "=" ++ dquote :: value ++ [dquote].

(** The markup of the link, line 200, with [href_text] in the hole of its
    [href]: an [a] element with the attributes [href], [target], [rel] and
    [class] and the text View Course followed by an arrow (U+2192). *)
Definition anchor (href_text : jsstring) : jsstring :=
  lit "<a " ++ attr "href" href_text
  ++ lit " " ++ attr "target" (lit "_blank")
  ++ lit " " ++ attr "rel" (lit "noopener noreferrer")
  ++ lit " " ++ attr "class" (lit "course-link")
  ++ lit ">View Course " ++ 8594%N :: lit "</a>".

(** The text that the template takes of [sources[0]]: a string as it is,
    [null], [true] and [false] by their names.  The text of a number, of a
    list and of an object is the host's work (the digits of a fraction, the
    members of a list; on an object the conversion may raise an exception)
    and is outside this model: [None]. *)
Definition String_of (v : JSON.value) : option jsstring :=
  match v with
  | JSON.Str s => Some s
  | JSON.Null => Some (lit "null")
  | JSON.Bool true => Some (lit "true")
  | JSON.Bool false => Some (lit "false")
  | _ => None
  end.

(** [sources] after [if (typeof sources === 'string') { try ... }]: a
    string is decoded with its single quotes turned into double quotes, and
    kept whole, as the only entry, when that is not JSON. *)
Definition decoded (src : SourcesField) : JSON.value :=
  match src with
  | SourcesStr s =>
      match JSON.parse (replace_g apostrophe [dquote] s) with
      | Normal v => v
      | Throw _ => JSON.Arr [JSON.Str s]
      end
  | SourcesSeq l => JSON.Arr (map JSON.Str l)
  end.

(** The variable [sourceLinks] after the body of [if (course.sources)]: the
    empty string, or the markup of the link to the first entry ([None]
    where [String_of] has no text for that entry). *)
Definition sourceLinks (course_sources : option SourcesField)
  : option jsstring :=
  match course_sources with
  | None => Some []
  | Some (SourcesStr []) => Some []
  | Some src =>
      match decoded src with
      | JSON.Arr (first :: _) => option_map anchor (String_of first)
      | _ => Some []
      end
  end.

(** What the host's HTML parser reads as the value of an attribute written
    between double quotes, from the first character after the opening
    quote: the characters up to the next double quote.  [None] when there
    is no closing quote, and when the text holds an ampersand, a carriage
    return or a NUL, which the parser rewrites (character references, line
    ends): those are outside this model. *)
Fixpoint attribute_value (s : jsstring) : option jsstring :=
  match s with
  | [] => None
  | c :: r =>
      if N.eqb c dquote then Some []
      else if (N.eqb c 38 || N.eqb c 13 || N.eqb c 0)%bool then None
      else option_map (cons c) (attribute_value r)
  end.

(** The target of a link, read from its markup. *)
Definition href_of (markup : jsstring) : option jsstring :=
  match JSON.strip_prefix (lit "<a href=" ++ [dquote]) markup with
  | Some rest => attribute_value rest
  | None => None
  end.

(** [function createCourseCard(course, index)] *)
Definition createCourseCard (course : Recommendation) (index : Z)
  : outcome Card :=
  let rating := rating_or_zero (rating course) in
  match stars_of rating with
  | Throw e => Throw e
  | Normal stars =>
      Normal
        {| card_title := course_name course;
           card_instructor := instructor course;
           card_match := toString (match_percentage course);
           card_stars := stars;
           card_rating := toFixed1 rating;
           card_platform := platform course;
           card_paid_icon := str_eqb (is_paid course) (lit "Paid");
           card_is_paid := is_paid course;
           card_enrolled :=
             match enrolled course with
             | Some n => if n >? 0 then Some (formatNumber n) else None
             | None => None
             end;
           card_reasons :=
             match match_reasons course with
             | Some ((_ :: _) as l) => Some l
             | _ => None
             end;
           card_link := sourceLinks (sources course) |}
  end.

(** [function displayRecommendations(recommendations)] *)
Definition displayRecommendations (recommendations : option (list Recommendation))
  : M unit :=
  rs <- prop recommendations ;;
  set_text recCount (toString (Z.of_nat (List.length rs))) ;;
  set_children recommendationsList [] ;;
  match rs with
  | [] =>
      set_children recommendationsList
        [Paragraph (lit "text-align: center; color: #666;")
           (lit "No recommendations found. Try uploading a more detailed resume.")]
  | _ :: _ =>
      forEach rs (fun course index =>
        courseCard <- lift (createCourseCard course index) ;;
        appendChild recommendationsList (CourseCard courseCard))
  end.

(** [function displayResults(data)] *)
Definition displayResults (data : UploadResponse) : M unit :=
  set_display uploadSection none_ ;;
  set_display loadingContainer none_ ;;
  set_display errorContainer none_ ;;
  displayAnalysis (analysis data) ;;
  displayRecommendations (recommendations data) ;;
  set_display resultsSection block ;;
  scroll (ScrollIntoView resultsSection).

(** [function resetForm()]; [uploadForm.reset()] empties the selection. *)
Definition resetForm : M unit :=
  (fun p => (Normal tt,
             {| elem := elem p;
                files := match files p with Some _ => Some [] | None => None end;
                fetched := fetched p; scrolled := scrolled p |})) ;;
  set_text fileName (lit "Choose File") ;;
  set_display uploadSection block ;;
  set_display loadingContainer none_ ;;
  set_display errorContainer none_ ;;
  set_display resultsSection none_ ;;
  scroll ScrollTop.

(** *** The submit handler *)

Definition allowedTypes : list jsstring :=
  [lit "application/pdf";
   lit "application/vnd.openxmlformats-officedocument.wordprocessingml.document";
   lit "application/msword"].

Inductive Validation :=
| Accept (file : File)
| Reject (message : jsstring).

(** The three checks at the head of the handler, in their order. *)
Definition validate (fs : option (list File)) : Validation :=
  match fs with
  | Some (file :: _) =>
      if file_size file >? 16 * 1024 * 1024
      then Reject (lit "File size exceeds 16MB limit")
      else if negb (includes allowedTypes (file_type file))
      then Reject (lit "Invalid file type. Please upload a PDF or DOCX file")
      else Accept file
  | _ => Reject (lit "Please select a file to upload")
  end.

(** [fetch('/upload', { method: 'POST', body: formData })] *)
Definition fetch (formData : list (jsstring * File)) : M unit :=
  fun p => (Normal tt,
            {| elem := elem p; files := files p;
               fetched := {| req_url := lit "/upload"; req_method := lit "POST";
                             req_body := formData |} :: fetched p;
               scrolled := scrolled p |}).

(** [data.error || 'An error occurred while processing your resume'] *)
Definition error_or_default (e : option jsstring) : jsstring :=
  match e with
  | Some ((_ :: _) as s) => s
  | _ => lit "An error occurred while processing your resume"
  end.

Definition truthy (b : option bool) : bool :=
  match b with Some true => true | _ => false end.

(** What follows the validation: the request and the routing of its
    outcome, inside the handler's [try]. *)
Definition upload (file : File) (net : FetchOutcome) : M unit :=
  showLoading ;;
  try_catch
    (fetch [(lit "resume", file)] ;;
     match net with
     | FetchRejects => throw TypeError
     | Responds ok body =>
         data <- match body with
                 | Some d => ret d
                 | None => throw SyntaxError
                 end ;;
         if (ok && truthy (success data))%bool
         then displayResults data
         else showError (error_or_default (error data))
     end)
    (fun _ => showError (lit "Failed to connect to server. Please try again.")).

(** [uploadForm.addEventListener('submit', ...)], with the outcome of the
    request that the handler awaits. *)
Definition onSubmit (net : FetchOutcome) : M unit :=
  fun p =>
    match validate (files p) with
    | Reject message => showError message p
    | Accept file => upload file net p
    end.

(** ** Notions used in the statements *)

(** The four states of the view, and the container of each. *)
Inductive ViewState := Upload | Loading | Error | Results.

Definition container (v : ViewState) : ElemId :=
  match v with
  | Upload => uploadSection
  | Loading => loadingContainer
  | Error => errorContainer
  | Results => resultsSection
  end.

Definition visible (p : Page) (i : ElemId) : bool :=
  negb (str_eqb (display (elem p i)) none_).

(** The states whose container is visible. *)
Definition shown (p : Page) : list ViewState :=
  filter (fun v => visible p (container v)) [Upload; Loading; Error; Results].

(** The message that the error region displays. *)
Definition message_of (p : Page) : jsstring := text (elem p errorMessage).

(** The request that the handler sends for [file]. *)
Definition request_for (file : File) : Request :=
  {| req_url := lit "/upload"; req_method := lit "POST";
     req_body := [(lit "resume", file)] |}.

(** A page as it is when the script starts: the upload form is visible,
    and no file is selected. *)
Definition blank : Element := {| display := []; text := []; children := [] |}.

Definition initial_page : Page :=
  {| elem := fun i =>
       match i with
       | uploadSection => {| display := block; text := []; children := [] |}
       | loadingContainer | errorContainer | resultsSection =>
           {| display := none_; text := []; children := [] |}
       | fileName => {| display := []; text := lit "Choose File"; children := [] |}
       | _ => blank
       end;
     files := Some [];
     fetched := [];
     scrolled := None |}.

Definition select (fs : list File) (p : Page) : Page :=
  {| elem := elem p; files := Some fs; fetched := fetched p;
     scrolled := scrolled p |}.

(** The rating that a card shows lies between 0 and 5, as the data model
    has it. *)
Definition rating_in_range (c : Recommendation) : bool :=
  (Qle_bool 0 (rating_or_zero (rating c))
   && Qle_bool (rating_or_zero (rating c)) 5)%bool.

(** A course of which this model has the card: the rating is in range,
    and the first entry of the sources, if there is one, has a text in
    [String_of]. *)
Definition card_modelled (c : Recommendation) : bool :=
  (rating_in_range c
   && match sourceLinks (sources c) with Some _ => true | None => false end)%bool.

(** A payload that the renderer takes: the analysis and the
    recommendations are there, and every course is one of which the model
    has the card. *)
Definition well_formed (data : UploadResponse) : bool :=
  match analysis data, recommendations data with
  | Some _, Some rs => forallb card_modelled rs
  | _, _ => false
  end.

(** A payload on which the renderer raises an exception: the analysis or
    the recommendations are missing, or some rating is negative. *)
Definition broken (data : UploadResponse) : bool :=
  match analysis data, recommendations data with
  | Some _, Some rs =>
      existsb (fun c => negb (Qle_bool 0 (rating_or_zero (rating c)))) rs
  | _, _ => true
  end.

(** The page once the handler has shown the loading state and sent the
    request for [file]. *)
Definition sent (file : File) (p : Page) : Page :=
  snd ((showLoading ;; fetch [(lit "resume", file)]) p).

(** Sample inputs. *)
Definition pdf_file : File :=
  {| file_name := lit "cv.pdf"; file_size := 52431;
     file_type := lit "application/pdf" |}.

Definition text_file : File :=
  {| file_name := lit "notes.txt"; file_size := 1024;
     file_type := lit "text/plain" |}.

Definition big_text_file : File :=
  {| file_name := lit "notes.txt"; file_size := 16777217;
     file_type := lit "text/plain" |}.

Definition sample_analysis : AnalysisResult :=
  {| experience_level := lit "Mid-Level"; skill_count := 2;
     domains := Some [lit "machine_learning_ops"];
     skills := Some [lit "python"; lit "sql"] |}.

Definition sample_course : Recommendation :=
  {| course_name := lit "Databases"; instructor := lit "A. Teacher";
     platform := lit "Udemy"; match_percentage := 87;
     rating := Some (47 # 10); is_paid := lit "Paid";
     enrolled := Some 1234567; match_reasons := Some [lit "Matches sql"];
     sources := Some (SourcesStr (lit "['http://a','http://b']")) |}.



Definition sample_data : UploadResponse :=
  {| success := Some true; analysis := Some sample_analysis;
     recommendations := Some [sample_course]; error := None |}.

(** A payload that announces a success and carries nothing else. *)
Definition bare_success : UploadResponse :=
  {| success := Some true; analysis := None; recommendations := None;
     error := None |}.

Definition refusal (e : option jsstring) : UploadResponse :=
  {| success := Some false; analysis := None; recommendations := None;
     error := e |}.

(** The payload with its error string taken out. *)
Definition without_error (data : UploadResponse) : UploadResponse :=
  {| success := success data; analysis := analysis data;
     recommendations := recommendations data; error := None |}.

Definition failed_to_connect : jsstring :=
  lit "Failed to connect to server. Please try again.".

(** The fractional part of a number, as the specification counts it. *)
Definition frac (r : Q) : Q := r - inject_Z (Qfloor r).

(** The number of stars that the specification gives to a rating. *)
Definition star_count (r : Q) : nat :=
  Z.to_nat (Qfloor r) + (if Qle_bool (1 # 2) (frac r) then 1 else 0).

(** The floating-point number of mantissa [m] and exponent [e]. *)
Definition binary64 (m e : Z) : Q := inject_Z m * (2 # 1) ^ e.

(** Separators by the specification: from the right, a comma after every
    third digit that has a digit before it.  [group3] reads the digits from
    the least significant one. *)
Fixpoint group3 (l : jsstring) : jsstring :=
  match l with
  | a :: b :: c :: ((_ :: _) as rest) => a :: b :: c :: comma :: group3 rest
  | _ => l
  end.

Definition with_separators (ds : jsstring) : jsstring := rev (group3 (rev ds)).

(** The last three decimal digits of a number. *)
Definition last3 (n : N) : jsstring :=
  [(48 + n / 100 mod 10)%N; (48 + n / 10 mod 10)%N; (48 + n mod 10)%N].

(** Whether a length is a multiple of three, and the comma that stands
    before a run of digits of that length inside a number. *)
Fixpoint mult3 (n : nat) : bool :=
  match n with
  | O => true
  | S (S (S m)) => mult3 m
  | _ => false
  end.

Definition comma_if (n : nat) : jsstring :=
  if (mult3 n && negb (Nat.eqb n 0))%bool then [comma] else [].

(** The number that a string of decimal digits denotes. *)
Definition decimal_value (ds : jsstring) : N :=
  fold_left (fun acc d => (10 * acc + (d - 48))%N) ds 0%N.

(** A sequence of strings written as a list literal whose strings are
    between quotes [q], e.g. ['a', 'b'] for the single quote; [pre] and
    [post] are the blanks around each comma. *)
Definition quoted (q : jschar) (s : jsstring) : jsstring := q :: s ++ [q].

Fixpoint join (sep : jsstring) (l : list jsstring) : jsstring :=
  match l with
  | [] => []
  | [x] => x
  | x :: r => x ++ sep ++ join sep r
  end.

Definition encode_seq (q : jschar) (pre post : jsstring) (l : list jsstring)
  : jsstring :=
  91%N :: join (pre ++ comma :: post) (map (quoted q) l) ++ [93%N].

(** A character that a quoted string holds as it is: not a quote of either
    kind, not a reverse solidus, not a control character. *)
Definition plain (c : jschar) : bool :=
  negb (N.eqb c 34 || N.eqb c 39 || N.eqb c 92 || N.ltb c 32)%bool.

(** A text that the parser of the host reads back unchanged from between
    the double quotes of an attribute: no double quote, no ampersand, no
    carriage return, no NUL. *)
Definition href_safe (s : jsstring) : bool :=
  forallb (fun c => negb (N.eqb c dquote || N.eqb c 38 || N.eqb c 13
                          || N.eqb c 0)%bool) s.

(** A string of ASCII characters, on which [toUpperCase] above is the
    host's. *)
Definition ascii_only (s : jsstring) : bool :=
  forallb (fun c => N.ltb c 128) s.

(** The domains of an analysis, none when the list is absent. *)
Definition domains_of (a : AnalysisResult) : list jsstring :=
  match domains a with Some l => l | None => [] end.

(** Every underscore replaced, as the specification words it. *)
Definition domain_text_spec (domain : jsstring) : jsstring :=
  toUpperCase (replace_g underscore [space] domain).

(** What the rendering functions leave alone: the [display] of every
    element, the requests sent and the selected files. *)
Definition frame (p p' : Page) : Prop :=
  (forall i, display (elem p' i) = display (elem p i))
  /\ fetched p' = fetched p
  /\ files p' = files p.

Definition keeps {A} (m : M A) : Prop := forall p, frame p (snd (m p)).

(** The page once [displayResults] has hidden the three other states. *)
Definition hidden (p : Page) : Page :=
  snd ((set_display uploadSection none_ ;;
        set_display loadingContainer none_ ;;
        set_display errorContainer none_) p).

(** An action that raises no exception, whatever the page. *)
Definition completes {A} (m : M A) : Prop :=
  forall p, exists a, fst (m p) = Normal a.

(** An action that leaves the element [i] as it is. *)
Definition spares {A} (i : ElemId) (m : M A) : Prop :=
  forall p, elem (snd (m p)) i = elem p i.

(** What the result renderer writes: the two texts and the two lists of
    tags of the analysis, the count and the list of the recommendations. *)
Definition rendered (p : Page)
  : jsstring * jsstring * list Node * list Node * jsstring * list Node :=
  (text (elem p experienceLevel), text (elem p skillCount),
   children (elem p domainsList), children (elem p skillsList),
   text (elem p recCount), children (elem p recommendationsList)).

(** The elements that the submit handler never writes. *)
Definition outside_handler (i : ElemId) : bool :=
  match i with
  | uploadForm | resumeFile | fileName | uploadBtn => true
  | _ => false
  end.

(** A string without its commas. *)
Definition strip_commas (s : jsstring) : jsstring :=
  filter (fun c => negb (N.eqb c comma)) s.

(** A character with which a JSON text may start, once the single quotes
    are double quotes: a blank, a brace, a bracket, a quote of either kind,
    the first letter of [true], [false] or [null], a minus sign, a digit. *)
Definition json_start (c : jschar) : bool :=
  (JSON.is_ws c || N.eqb c 123 || N.eqb c 91 || N.eqb c 34 || N.eqb c 39
   || N.eqb c 116 || N.eqb c 102 || N.eqb c 110 || N.eqb c 45
   || JSON.is_digit c)%bool.

(** The tags that the analysis gives for its domains and for its skills. *)
Definition domain_nodes (ds : option (list jsstring)) : list Node :=
  match ds with
  | Some ((_ :: _) as l) => map domain_tag l
  | _ => [Tag (lit "domain-tag") (lit "General") []]
  end.

Definition skill_nodes (ss : option (list jsstring)) : list Node :=
  match ss with
  | Some ((_ :: _) as l) =>
      map skill_tag (firstn 10 l)
      ++ (if Z.of_nat (List.length l) >? 10
          then [more_tag (Z.of_nat (List.length l) - 10)] else [])
  | _ => [Tag (lit "skill-tag") (lit "No specific skills identified") []]
  end.

(** The message shown in place of the cards when there is no course. *)
Definition no_recommendations : Node :=
  Paragraph (lit "text-align: center; color: #666;")
    (lit "No recommendations found. Try uploading a more detailed resume.").

(** [card] is the card of [course], at whatever place in the list. *)
Definition card_of (course : Recommendation) (card : Card) : Prop :=
  forall index, createCourseCard course index = Normal card.

(** Two more sample payloads: a success with no course, and a success
    whose recommendations are missing. *)
Definition data_no_course : UploadResponse :=
  {| success := Some true; analysis := Some sample_analysis;
     recommendations := Some []; error := None |}.

Definition data_no_recommendations : UploadResponse :=
  {| success := Some true; analysis := Some sample_analysis;
     recommendations := None; error := None |}.

(** * Properties *)

(** ** Strings *)

Lemma str_eqb_eq (a b : jsstring) : str_eqb a b = true <-> a = b.
Proof.
  revert b; induction a as [|x a IH]; intros [|y b]; simpl; split;
    try congruence; try reflexivity.
  - intros H. apply andb_true_iff in H as [Hx Ha].
    apply N.eqb_eq in Hx. apply IH in Ha. congruence.
  - intros H. injection H as -> ->.
    rewrite N.eqb_refl. simpl. now apply IH.
Qed.

Lemma str_eqb_refl (a : jsstring) : str_eqb a a = true.
Proof. now apply str_eqb_eq. Qed.

Lemma includes_In (l : list jsstring) (x : jsstring) :
  includes l x = true <-> In x l.
Proof.
  unfold includes. rewrite existsb_exists. split.
  - intros (y & Hy & E). apply str_eqb_eq in E. now subst.
  - intros H. exists x. split; [assumption | apply str_eqb_refl].
Qed.

Lemma includes_not_In (l : list jsstring) (x : jsstring) :
  includes l x = false <-> ~ In x l.
Proof.
  rewrite <- includes_In. destruct (includes l x); split; congruence.
Qed.

(** ** The frame of the rendering functions *)

Create HintDb keeps.

Section Frame.

Lemma frame_refl p : frame p p.
Proof. repeat split. Qed.

Lemma frame_trans p q r : frame p q -> frame q r -> frame p r.
Proof.
  intros (D1 & F1 & S1) (D2 & F2 & S2). repeat split.
  - intros i. now rewrite D2, D1.
  - congruence.
  - congruence.
Qed.

Lemma keeps_ret {A} (a : A) : keeps (ret a).
Proof. intros p. apply frame_refl. Qed.

Lemma keeps_throw {A} (e : exn) : keeps (@throw A e).
Proof. intros p. apply frame_refl. Qed.

Lemma keeps_lift {A} (o : outcome A) : keeps (lift o).
Proof. intros p. apply frame_refl. Qed.

Lemma keeps_prop {A} (o : option A) : keeps (prop o).
Proof. destruct o; [apply keeps_ret | apply keeps_throw]. Qed.

Lemma keeps_bind {A B} (m : M A) (k : A -> M B) :
  keeps m -> (forall a, keeps (k a)) -> keeps (bind m k).
Proof.
  intros Hm Hk p. unfold bind. specialize (Hm p).
  destruct (m p) as [[a|e] q]; simpl in *.
  - eapply frame_trans; [exact Hm | apply Hk].
  - exact Hm.
Qed.

Lemma keeps_set_text i v : keeps (set_text i v).
Proof.
  intros p. repeat split. intros j. simpl.
  destruct (ElemId_eqb j i); reflexivity.
Qed.

Lemma keeps_set_children i l : keeps (set_children i l).
Proof.
  intros p. repeat split. intros j. simpl.
  destruct (ElemId_eqb j i); reflexivity.
Qed.

Lemma keeps_appendChild i n : keeps (appendChild i n).
Proof.
  intros p. repeat split. intros j. simpl.
  destruct (ElemId_eqb j i); reflexivity.
Qed.

Lemma keeps_forEach_from {A} (l : list A) (body : A -> Z -> M unit) :
  (forall x i, keeps (body x i)) -> forall index, keeps (forEach_from index l body).
Proof.
  intros Hb. induction l as [|x l IH]; intros index; simpl.
  - apply keeps_ret.
  - apply keeps_bind; [apply Hb | intros _; apply IH].
Qed.

Lemma keeps_forEach {A} (l : list A) (body : A -> Z -> M unit) :
  (forall x i, keeps (body x i)) -> keeps (forEach l body).
Proof. intros Hb. now apply keeps_forEach_from. Qed.

Hint Resolve keeps_ret keeps_throw keeps_lift keeps_prop keeps_set_text
  keeps_set_children keeps_appendChild : keeps.

Ltac keeps_steps :=
  repeat first
    [ apply keeps_forEach; intros ? ?
    | apply keeps_bind; [|intros ?]
    | solve [auto with keeps] ].

Lemma keeps_displayAnalysis analysis : keeps (displayAnalysis analysis).
Proof.
  unfold displayAnalysis, domains_block, skills_block. keeps_steps.
  - destruct (domains _) as [[|d ds]|]; keeps_steps.
  - destruct (skills _) as [[|s ss]|]; keeps_steps.
    destruct (_ >? 10); keeps_steps.
Qed.

Lemma keeps_displayRecommendations recs : keeps (displayRecommendations recs).
Proof.
  unfold displayRecommendations. keeps_steps.
  destruct a as [|r rs]; keeps_steps.
Qed.

End Frame.

(** ** The four operations on the view *)

Lemma bind_run {A B} (m : M A) (k : A -> M B) (p : Page) :
  bind m k p = match m p with
               | (Normal a, p') => k a p'
               | (Throw e, p') => (Throw e, p')
               end.
Proof. reflexivity. Qed.

Section View.

Variable p : Page.

Lemma showLoading_run :
  fst (showLoading p) = Normal tt
  /\ shown (snd (showLoading p)) = [Loading]
  /\ fetched (snd (showLoading p)) = fetched p
  /\ files (snd (showLoading p)) = files p.
Proof. repeat split. Qed.

Lemma showError_run (message : jsstring) :
  fst (showError message p) = Normal tt
  /\ shown (snd (showError message p)) = [Error]
  /\ message_of (snd (showError message p)) = message
  /\ fetched (snd (showError message p)) = fetched p
  /\ files (snd (showError message p)) = files p.
Proof. repeat split. Qed.

Lemma resetForm_run :
  fst (resetForm p) = Normal tt
  /\ shown (snd (resetForm p)) = [Upload]
  /\ text (elem (snd (resetForm p)) fileName) = lit "Choose File"
  /\ fetched (snd (resetForm p)) = fetched p.
Proof. repeat split. Qed.

Lemma displayResults_eq (data : UploadResponse) :
  displayResults data p
  = (displayAnalysis (analysis data) ;;
     displayRecommendations (recommendations data) ;;
     set_display resultsSection block ;;
     scroll (ScrollIntoView resultsSection)) (hidden p).
Proof. reflexivity. Qed.

(** [displayResults] either completes, and then shows the results, or
    stops on an exception of the renderer with the results not shown
    yet; the renderer touches no [display]. *)
Lemma displayResults_run (data : UploadResponse) :
  exists q, frame (hidden p) q
    /\ (displayResults data p
          = (Normal tt,
             snd ((set_display resultsSection block ;;
                   scroll (ScrollIntoView resultsSection)) q))
        \/ exists e, displayResults data p = (Throw e, q)).
Proof.
  rewrite displayResults_eq. generalize (hidden p). intros h.
  pose proof (keeps_displayAnalysis (analysis data) h) as K1.
  rewrite bind_run.
  destruct (displayAnalysis (analysis data) h) as [[[]|e] q1]; simpl in K1.
  - pose proof (keeps_displayRecommendations (recommendations data) q1) as K2.
    rewrite bind_run.
    destruct (displayRecommendations (recommendations data) q1)
      as [[[]|e] q2]; simpl in K2.
    + exists q2. split; [eapply frame_trans; eassumption | now left].
    + exists q2. split; [eapply frame_trans; eassumption | right; now exists e].
  - exists q1. split; [assumption | right; now exists e].
Qed.

Lemma displayResults_shown (data : UploadResponse) (q : Page) :
  displayResults data p = (Normal tt, q) ->
  shown q = [Results] /\ fetched q = fetched p /\ files q = files p.
Proof.
  intros H. destruct (displayResults_run data) as (q' & (D & F & S) & [E|[e E]]);
    rewrite E in H; [|discriminate].
  injection H as <-. unfold shown, visible. simpl.
  rewrite !D. simpl. repeat split; assumption.
Qed.

End View.

(** ** Ratings and stars *)

Section Stars.

Lemma floor_nonneg (r : Q) : Qle_bool 0 r = true -> 0 <= Math.floor r.
Proof.
  intros H. apply Qle_bool_iff in H.
  change 0 with (Qfloor 0). now apply Qfloor_resp_le.
Qed.

Lemma floor_negative (r : Q) : Qle_bool 0 r = false -> Math.floor r < 0.
Proof.
  intros H. unfold Math.floor.
  destruct (Z_lt_le_dec (Qfloor r) 0) as [L|L]; [assumption|].
  exfalso. assert (Qle_bool 0 r = true); [|congruence].
  apply Qle_bool_iff.
  apply Qle_trans with (inject_Z (Qfloor r)); [|apply Qfloor_le].
  change 0%Q with (inject_Z 0). now rewrite <- Zle_Qle.
Qed.

Lemma concat_repeat_singleton {A} (x : A) (n : nat) :
  List.concat (List.repeat [x] n) = List.repeat x n.
Proof. induction n; simpl; congruence. Qed.

(** On a rating that is not negative, the remainder of the division by 1
    is the fractional part. *)
Lemma rem1_frac (r : Q) : (0 <= r)%Q -> (rem1 r == frac r)%Q.
Proof.
  destruct r as [n d]. unfold Qle, rem1, frac, Qeq, Qminus, Qplus, Qopp, inject_Z.
  simpl. intros H. assert (0 <= n) by lia.
  rewrite Z.rem_mod_nonneg by lia.
  pose proof (Z.div_mod n (Zpos d)). nia.
Qed.

Lemma stars_of_nonneg (r : Q) :
  Qle_bool 0 r = true -> stars_of r = Normal (List.repeat star (star_count r)).
Proof.
  intros H. pose proof (floor_nonneg r H) as F.
  unfold stars_of, repeat_str, star_count.
  destruct (Z.ltb_spec (Math.floor r) 0) as [L|_]; [lia|].
  rewrite concat_repeat_singleton.
  apply Qle_bool_iff in H.
  rewrite (Qleb_comp (1 # 2) (1 # 2) (Qeq_refl _) _ _ (rem1_frac r H)).
  unfold Math.floor.
  destruct (Qle_bool (1 # 2) (frac r)).
  - rewrite repeat_app. reflexivity.
  - now rewrite Nat.add_0_r, app_nil_r.
Qed.

Lemma stars_of_negative (r : Q) :
  Qle_bool 0 r = false -> stars_of r = Throw RangeError.
Proof.
  intros H. pose proof (floor_negative r H) as F.
  unfold stars_of, repeat_str.
  destruct (Z.ltb_spec (Math.floor r) 0) as [_|L]; [reflexivity | lia].
Qed.

Lemma createCourseCard_ok (course : Recommendation) (index : Z) :
  Qle_bool 0 (rating_or_zero (rating course)) = true ->
  exists card, createCourseCard course index = Normal card
    /\ card_stars card
       = List.repeat star (star_count (rating_or_zero (rating course))).
Proof.
  intros H. unfold createCourseCard. rewrite (stars_of_nonneg _ H).
  eexists. split; reflexivity.
Qed.

Lemma createCourseCard_negative (course : Recommendation) (index : Z) :
  Qle_bool 0 (rating_or_zero (rating course)) = false ->
  createCourseCard course index = Throw RangeError.
Proof.
  intros H. unfold createCourseCard. now rewrite (stars_of_negative _ H).
Qed.

End Stars.

(** ** When the renderer completes, and when it raises *)

Create HintDb completes.

Section Renderer.

Lemma forEach_from_completes {A} (l : list A) (body : A -> Z -> M unit) :
  (forall x, In x l -> forall i p, fst (body x i p) = Normal tt) ->
  forall index p, fst (forEach_from index l body p) = Normal tt.
Proof.
  induction l as [|x l IH]; intros Hb index p; simpl; [reflexivity|].
  rewrite bind_run.
  pose proof (Hb x (or_introl eq_refl) index p) as Hx.
  destruct (body x index p) as [[[]|e] q]; simpl in Hx; [|discriminate].
  apply IH. intros y Hy. apply Hb. now right.
Qed.

Lemma forEach_from_throws {A} (l : list A) (body : A -> Z -> M unit) :
  (exists x, In x l /\ forall i p, exists e, fst (body x i p) = Throw e) ->
  forall index p, exists e, fst (forEach_from index l body p) = Throw e.
Proof.
  induction l as [|x l IH]; intros (y & Hy & Hb) index p; simpl.
  - destruct Hy.
  - rewrite bind_run. destruct Hy as [->|Hy].
    + destruct (Hb index p) as (e & He).
      destruct (body y index p) as [[[]|e'] q]; simpl in He; [discriminate|].
      now exists e'.
    + destruct (body x index p) as [[[]|e'] q].
      * apply IH. now exists y.
      * now exists e'.
Qed.

Lemma completes_ret {A} (a : A) : completes (ret a).
Proof. intros p. now exists a. Qed.

Lemma completes_bind {A B} (m : M A) (k : A -> M B) :
  completes m -> (forall a, completes (k a)) -> completes (bind m k).
Proof.
  intros Hm Hk p. rewrite bind_run. destruct (Hm p) as (a & Ha).
  destruct (m p) as [[a'|e] q]; simpl in Ha; [|discriminate].
  apply Hk.
Qed.

Lemma completes_set_text i v : completes (set_text i v).
Proof. intros p. now exists tt. Qed.

Lemma completes_set_children i l : completes (set_children i l).
Proof. intros p. now exists tt. Qed.

Lemma completes_appendChild i n : completes (appendChild i n).
Proof. intros p. now exists tt. Qed.

Lemma completes_forEach {A} (l : list A) (body : A -> Z -> M unit) :
  (forall x i, completes (body x i)) -> completes (forEach l body).
Proof.
  intros Hb p. exists tt. apply forEach_from_completes. intros x _ i q.
  destruct (Hb x i q) as ([] & E). exact E.
Qed.

Hint Resolve completes_ret completes_set_text completes_set_children
  completes_appendChild : completes.

Ltac completes_steps :=
  repeat first
    [ apply completes_forEach; intros ? ?
    | apply completes_bind; [|intros ?]
    | solve [auto with completes] ].

Lemma displayAnalysis_completes (a : AnalysisResult) (p : Page) :
  fst (displayAnalysis (Some a) p) = Normal tt.
Proof.
  assert (C : completes (displayAnalysis (Some a))).
  { unfold displayAnalysis, domains_block, skills_block. simpl prop.
    completes_steps.
    - destruct (domains _) as [[|d ds]|]; completes_steps.
    - destruct (skills _) as [[|s ss]|]; completes_steps.
      destruct (_ >? 10); completes_steps. }
  destruct (C p) as ([] & E). exact E.
Qed.

Lemma displayRecommendations_completes (rs : list Recommendation) (p : Page) :
  forallb (fun c => Qle_bool 0 (rating_or_zero (rating c))) rs = true ->
  fst (displayRecommendations (Some rs) p) = Normal tt.
Proof.
  intros H. unfold displayRecommendations. simpl prop. rewrite !bind_run. simpl.
  destruct rs as [|r rs]; [reflexivity|].
  apply forEach_from_completes. intros c Hc i q.
  rewrite forallb_forall in H. specialize (H c Hc).
  destruct (createCourseCard_ok c i H) as (card & E & _).
  rewrite bind_run. unfold lift. rewrite E. reflexivity.
Qed.

Lemma displayRecommendations_throws (rs : list Recommendation) (p : Page) :
  existsb (fun c => negb (Qle_bool 0 (rating_or_zero (rating c)))) rs = true ->
  exists e, fst (displayRecommendations (Some rs) p) = Throw e.
Proof.
  intros H. unfold displayRecommendations. simpl prop. rewrite !bind_run. simpl.
  destruct rs as [|r rs]; [discriminate|].
  apply forEach_from_throws.
  apply existsb_exists in H as (c & Hc & N).
  exists c. split; [assumption|]. intros i q.
  apply negb_true_iff in N.
  rewrite bind_run. unfold lift. rewrite (createCourseCard_negative c i N).
  now exists RangeError.
Qed.

Lemma well_formed_not_broken (data : UploadResponse) :
  well_formed data = true -> broken data = false.
Proof.
  unfold well_formed, broken.
  destruct (analysis data); [|discriminate].
  destruct (recommendations data) as [rs|]; [|discriminate].
  intros H. apply not_true_is_false. intros B.
  apply existsb_exists in B as (c & Hc & N).
  rewrite forallb_forall in H. specialize (H c Hc).
  unfold card_modelled, rating_in_range in H.
  apply andb_true_iff in H as [H _]. apply andb_true_iff in H as [H _].
  rewrite H in N. discriminate.
Qed.

Lemma displayResults_completes (data : UploadResponse) (p : Page) :
  broken data = false -> exists q, displayResults data p = (Normal tt, q).
Proof.
  unfold broken. intros H.
  destruct (analysis data) as [a|] eqn:Ea; [|discriminate].
  destruct (recommendations data) as [rs|] eqn:Er; [|discriminate].
  assert (F : forallb (fun c => Qle_bool 0 (rating_or_zero (rating c))) rs = true).
  { apply forallb_forall. intros c Hc.
    destruct (Qle_bool 0 (rating_or_zero (rating c))) eqn:E; [reflexivity|].
    exfalso. apply not_true_iff_false in H. apply H.
    apply existsb_exists. exists c. now rewrite E. }
  rewrite displayResults_eq, Ea, Er, bind_run.
  pose proof (displayAnalysis_completes a (hidden p)) as A.
  destruct (displayAnalysis (Some a) (hidden p)) as [r1 q1].
  simpl in A. subst r1. rewrite bind_run.
  pose proof (displayRecommendations_completes rs q1 F) as R.
  destruct (displayRecommendations (Some rs) q1) as [r2 q2].
  simpl in R. subst r2. eexists. reflexivity.
Qed.

Lemma displayResults_throws (data : UploadResponse) (p : Page) :
  broken data = true -> exists e q, displayResults data p = (Throw e, q).
Proof.
  unfold broken. intros H.
  rewrite displayResults_eq, bind_run.
  destruct (analysis data) as [a|] eqn:Ea.
  - pose proof (displayAnalysis_completes a (hidden p)) as A.
    destruct (displayAnalysis (Some a) (hidden p)) as [r1 q1].
    simpl in A. subst r1. rewrite bind_run.
    destruct (recommendations data) as [rs|] eqn:Er.
    + destruct (displayRecommendations_throws rs q1 H) as (e & R).
      destruct (displayRecommendations (Some rs) q1) as [r2 q2].
      simpl in R. subst r2. now exists e, q2.
    + eexists. eexists. reflexivity.
  - eexists. eexists. reflexivity.
Qed.

End Renderer.

(** ** The submit handler *)

Section Submit.

Variable file : File.
Variable p : Page.

(** The handler after the validation, case by case. *)
Lemma upload_eq (net : FetchOutcome) :
  upload file net p
  = match net with
    | Responds ok (Some data) =>
        if (ok && truthy (success data))%bool
        then match displayResults data (sent file p) with
             | (Normal a, q) => (Normal a, q)
             | (Throw _, q) => showError failed_to_connect q
             end
        else showError (error_or_default (error data)) (sent file p)
    | _ => showError failed_to_connect (sent file p)
    end.
Proof.
  destruct net as [|ok [data|]]; try reflexivity.
  unfold upload, try_catch, sent. rewrite !bind_run.
  destruct (showLoading p) as [[[]|?] p1] eqn:L; [|discriminate L].
  cbv beta iota. rewrite !bind_run.
  destruct (fetch [(lit "resume", file)] p1) as [[[]|?] p2] eqn:F;
    [|discriminate F].
  cbv beta iota. unfold snd. rewrite bind_run. unfold ret.
  destruct (ok && truthy (success data))%bool; reflexivity.
Qed.

Lemma sent_fetched : fetched (sent file p) = request_for file :: fetched p.
Proof. reflexivity. Qed.

Lemma upload_fetched (net : FetchOutcome) :
  fetched (snd (upload file net p)) = request_for file :: fetched p.
Proof.
  rewrite upload_eq, <- sent_fetched.
  destruct net as [|ok [data|]]; try reflexivity.
  destruct (ok && truthy (success data))%bool; [|reflexivity].
  destruct (displayResults_run (sent file p) data)
    as (q & (_ & F & _) & [E|[e E]]); rewrite E; simpl; exact F.
Qed.

End Submit.

(** ** Validation of the selected file *)

Lemma text_plain_not_allowed : ~ In (lit "text/plain") allowedTypes.
Proof. intros [H|[H|[H|[]]]]; discriminate H. Qed.

(** C1.  The validator applies its three rules in order and the first
    failure wins: without a selected file it rejects with "Please select a
    file to upload"; else above 16,777,216 bytes it rejects with "File size
    exceeds 16MB limit"; else with a media type outside the three allowed
    ones it rejects with "Invalid file type. Please upload a PDF or DOCX
    file"; else it accepts.  On a rejection the handler shows the message in
    the Error state and sends nothing; on an acceptance it sends the file. *)
Theorem validation_first_failure_wins (p : Page) (net : FetchOutcome) :
  allowedTypes
  = [lit "application/pdf";
     lit "application/vnd.openxmlformats-officedocument.wordprocessingml.document";
     lit "application/msword"]
  /\ ((files p = None \/ files p = Some []) ->
      validate (files p) = Reject (lit "Please select a file to upload"))
  /\ (forall file rest, files p = Some (file :: rest) ->
      (file_size file > 16777216 ->
       validate (files p) = Reject (lit "File size exceeds 16MB limit"))
      /\ (file_size file <= 16777216 ->
          ~ In (file_type file) allowedTypes ->
          validate (files p)
          = Reject (lit "Invalid file type. Please upload a PDF or DOCX file"))
      /\ (file_size file <= 16777216 ->
          In (file_type file) allowedTypes ->
          validate (files p) = Accept file))
  /\ (forall message, validate (files p) = Reject message ->
      shown (snd (onSubmit net p)) = [Error]
      /\ message_of (snd (onSubmit net p)) = message
      /\ fetched (snd (onSubmit net p)) = fetched p)
  /\ (forall file, validate (files p) = Accept file ->
      fetched (snd (onSubmit net p)) = request_for file :: fetched p).
Proof.
  split; [reflexivity|]. split; [|split; [|split]].
  - intros [-> | ->]; reflexivity.
  - intros file rest ->. unfold validate.
    change (16 * 1024 * 1024) with 16777216.
    destruct (Z.gtb_spec (file_size file) 16777216) as [G|L].
    + repeat split; intros; try reflexivity; lia.
    + repeat split; intros; try lia.
      * assert (E : includes allowedTypes (file_type file) = false)
          by now apply includes_not_In.
        now rewrite E.
      * assert (E : includes allowedTypes (file_type file) = true)
          by now apply includes_In.
        now rewrite E.
  - intros message V. unfold onSubmit. rewrite V.
    destruct (showError_run p message) as (_ & S & M & F & _). now repeat split.
  - intros file V. unfold onSubmit. rewrite V. apply upload_fetched.
Qed.

Lemma validation_first_failure_wins_witness :
  validate (Some [pdf_file]) = Accept pdf_file
  /\ fetched (snd (onSubmit FetchRejects (select [pdf_file] initial_page)))
     = [request_for pdf_file].
Proof.
  pose proof (validation_first_failure_wins
                (select [pdf_file] initial_page) FetchRejects)
    as (_ & _ & V & _ & S).
  destruct (V pdf_file [] eq_refl) as (_ & _ & A).
  assert (E : validate (Some [pdf_file]) = Accept pdf_file).
  { apply A; [simpl; lia | left; reflexivity]. }
  split; [exact E | exact (S pdf_file E)].
Defined.

(** C2, as the code has it.  A file whose media type is outside the three
    allowed ones is rejected with the type message when its size is at most
    16,777,216 bytes, and with the size message when it is larger: the size
    is checked first. *)
Theorem type_rejection_after_size (file : File) (rest : list File) :
  ~ In (file_type file) allowedTypes ->
  (file_size file <= 16777216 ->
   validate (Some (file :: rest))
   = Reject (lit "Invalid file type. Please upload a PDF or DOCX file"))
  /\ (file_size file > 16777216 ->
      validate (Some (file :: rest)) = Reject (lit "File size exceeds 16MB limit")).
Proof.
  intros N. apply includes_not_In in N. unfold validate.
  change (16 * 1024 * 1024) with 16777216.
  destruct (Z.gtb_spec (file_size file) 16777216); split; intros; try lia.
  - reflexivity.
  - now rewrite N.
Qed.

Lemma type_rejection_after_size_witness :
  validate (Some [text_file])
  = Reject (lit "Invalid file type. Please upload a PDF or DOCX file").
Proof.
  apply (type_rejection_after_size text_file [] text_plain_not_allowed).
  simpl. lia.
Defined.

(** C2 fails as stated: a file of 16,777,217 bytes whose type is
    [text/plain] is rejected with the size message, not the type message. *)
Lemma oversize_text_file_gets_size_message :
  ~ In (file_type big_text_file) allowedTypes
  /\ validate (Some [big_text_file]) = Reject (lit "File size exceeds 16MB limit")
  /\ validate (Some [big_text_file])
     <> Reject (lit "Invalid file type. Please upload a PDF or DOCX file")
  /\ message_of (snd (onSubmit FetchRejects (select [big_text_file] initial_page)))
     = lit "File size exceeds 16MB limit".
Proof.
  split; [exact text_plain_not_allowed|].
  split; [reflexivity|]. split; [discriminate | reflexivity].
Qed.

(** ** The view states *)

(** C5.  After each of the four operations on the view has completed,
    exactly one of the four containers is visible: the loading one after
    [showLoading], the error one after [showError], the results after
    [displayResults], and the upload form after [resetForm], which also
    puts "Choose File" back as the displayed file name, whatever the page
    was before. *)
Theorem one_state_visible (p : Page) :
  (fst (showLoading p) = Normal tt /\ shown (snd (showLoading p)) = [Loading])
  /\ (forall message,
      fst (showError message p) = Normal tt
      /\ shown (snd (showError message p)) = [Error])
  /\ (forall data q,
      displayResults data p = (Normal tt, q) -> shown q = [Results])
  /\ (fst (resetForm p) = Normal tt
      /\ shown (snd (resetForm p)) = [Upload]
      /\ text (elem (snd (resetForm p)) fileName) = lit "Choose File").
Proof.
  split; [|split; [|split]].
  - split; apply showLoading_run.
  - intros message. split; apply showError_run.
  - intros data q H. now apply (displayResults_shown p data q).
  - repeat split.
Qed.

Lemma one_state_visible_witness :
  shown (snd (displayResults sample_data initial_page)) = [Results].
Proof.
  assert (E : fst (displayResults sample_data initial_page) = Normal tt)
    by (vm_compute; reflexivity).
  destruct (displayResults sample_data initial_page) as [o q] eqn:R.
  simpl in E. subst o. simpl snd.
  exact (proj1 (proj2 (proj2 (one_state_visible initial_page))) sample_data q R).
Defined.

(** ** The routing of the answer *)

Lemma not_success (ok : bool) (data : UploadResponse) :
  ok = false \/ success data <> Some true ->
  (ok && truthy (success data))%bool = false.
Proof.
  intros [-> | N]; [reflexivity|].
  destruct ok; [|reflexivity]. simpl.
  destruct (success data) as [[|]|]; try reflexivity. now elim N.
Qed.

(** C4 fails as stated: with a successful status and a payload whose
    success flag is true but which carries no analysis, no results are
    shown; the Error state shows the message of a failed connection. *)
Lemma bare_success_shows_connection_error :
  success bare_success = Some true
  /\ shown (snd (onSubmit (Responds true (Some bare_success))
                   (select [pdf_file] initial_page))) = [Error]
  /\ message_of (snd (onSubmit (Responds true (Some bare_success))
                        (select [pdf_file] initial_page)))
     = lit "Failed to connect to server. Please try again.".
Proof. repeat split. Qed.

(** C10.  When the answer is JSON and does not indicate a success, an error
    string that is present but empty is treated as an absent one: the Error
    state shows "An error occurred while processing your resume", and the
    handler ends as it does on the same payload without the error string. *)
Theorem empty_error_string_is_absent
    (file : File) (ok : bool) (data : UploadResponse) (p : Page) :
  ok = false \/ success data <> Some true ->
  error data = Some [] ->
  shown (snd (upload file (Responds ok (Some data)) p)) = [Error]
  /\ message_of (snd (upload file (Responds ok (Some data)) p))
     = lit "An error occurred while processing your resume"
  /\ message_of (snd (upload file (Responds ok (Some data)) p)) <> []
  /\ upload file (Responds ok (Some data)) p
     = upload file (Responds ok (Some (without_error data))) p.
Proof.
  intros N E. rewrite !upload_eq.
  change (success (without_error data)) with (success data).
  rewrite (not_success ok data N), E.
  repeat split. discriminate.
Qed.

Lemma empty_error_string_is_absent_witness :
  message_of (snd (upload pdf_file (Responds false (Some (refusal (Some []))))
                     initial_page))
  = lit "An error occurred while processing your resume".
Proof.
  apply (empty_error_string_is_absent pdf_file false (refusal (Some []))
           initial_page (or_introl eq_refl) eq_refl).
Defined.

(** ** The tags of the analysis *)

Section Tags.

Lemma ElemId_eqb_refl (i : ElemId) : ElemId_eqb i i = true.
Proof. destruct i; reflexivity. Qed.

Lemma ElemId_eqb_neq (i j : ElemId) : j <> i -> ElemId_eqb j i = false.
Proof. destruct i, j; intros H; try reflexivity; now elim H. Qed.

(** A loop that appends one node per entry appends the nodes in the order
    of the entries, and touches nothing else. *)
Lemma forEach_append_run {A} (i : ElemId) (f : A -> Node) (l : list A) :
  forall index p, exists p',
    forEach_from index l (fun x _ => appendChild i (f x)) p = (Normal tt, p')
    /\ children (elem p' i) = children (elem p i) ++ map f l
    /\ forall j, j <> i -> elem p' j = elem p j.
Proof.
  induction l as [|x l IH]; intros index p; simpl.
  - exists p. rewrite app_nil_r. now repeat split.
  - destruct (IH (index + 1) (snd (appendChild i (f x) p)))
      as (p' & E & C & O).
    exists p'. split; [rewrite bind_run; exact E|]. split.
    + rewrite C. simpl. rewrite ElemId_eqb_refl. simpl.
      now rewrite <- app_assoc.
    + intros j Hj. rewrite (O j Hj). simpl.
      now rewrite (ElemId_eqb_neq _ _ Hj).
Qed.

Lemma domains_block_run (ds : option (list jsstring)) (p : Page) :
  children (elem p domainsList) = [] ->
  exists p',
    domains_block ds p = (Normal tt, p')
    /\ children (elem p' domainsList)
       = match ds with
         | Some ((_ :: _) as l) => map domain_tag l
         | _ => [Tag (lit "domain-tag") (lit "General") []]
         end
    /\ forall j, j <> domainsList -> elem p' j = elem p j.
Proof.
  intros E0. destruct ds as [[|d l]|]; simpl domains_block.
  2:{ destruct (forEach_append_run domainsList domain_tag (d :: l) 0 p)
        as (p' & E & C & O).
      exists p'. rewrite E0 in C. now repeat split. }
  all: eexists; split; [reflexivity|]; split; [reflexivity|];
    intros j Hj; simpl; now rewrite (ElemId_eqb_neq _ _ Hj).
Qed.

Lemma skills_block_run (ss : option (list jsstring)) (p : Page) :
  children (elem p skillsList) = [] ->
  exists p',
    skills_block ss p = (Normal tt, p')
    /\ children (elem p' skillsList)
       = match ss with
         | Some ((_ :: _) as l) =>
             map skill_tag (firstn 10 l)
             ++ (if Z.of_nat (List.length l) >? 10
                 then [more_tag (Z.of_nat (List.length l) - 10)] else [])
         | _ => [Tag (lit "skill-tag") (lit "No specific skills identified") []]
         end
    /\ forall j, j <> skillsList -> elem p' j = elem p j.
Proof.
  intros E0. destruct ss as [[|s l]|]; unfold skills_block.
  2:{ rewrite bind_run.
      destruct (forEach_append_run skillsList skill_tag (firstn 10 (s :: l)) 0 p)
        as (q & E & C & O).
      change (forEach (firstn 10 (s :: l))
                (fun skill _ => appendChild skillsList (skill_tag skill)) p)
        with (forEach_from 0 (firstn 10 (s :: l))
                (fun skill _ => appendChild skillsList (skill_tag skill)) p).
      rewrite E. rewrite E0 in C.
      destruct (Z.of_nat (List.length (s :: l)) >? 10).
      - eexists. split; [reflexivity|]. split.
        + simpl. now rewrite C.
        + intros j Hj. simpl. rewrite (ElemId_eqb_neq _ _ Hj). now apply O.
      - exists q. split; [reflexivity|]. split.
        + now rewrite C, app_nil_r.
        + exact O. }
  all: eexists; split; [reflexivity|]; split; [reflexivity|];
    intros j Hj; simpl; now rewrite (ElemId_eqb_neq _ _ Hj).
Qed.

(** The two lists of tags once [displayAnalysis] has run. *)
Lemma displayAnalysis_children (a : AnalysisResult) (p : Page) :
  exists p',
    displayAnalysis (Some a) p = (Normal tt, p')
    /\ children (elem p' domainsList)
       = match domains a with
         | Some ((_ :: _) as l) => map domain_tag l
         | _ => [Tag (lit "domain-tag") (lit "General") []]
         end
    /\ children (elem p' skillsList)
       = match skills a with
         | Some ((_ :: _) as l) =>
             map skill_tag (firstn 10 l)
             ++ (if Z.of_nat (List.length l) >? 10
                 then [more_tag (Z.of_nat (List.length l) - 10)] else [])
         | _ => [Tag (lit "skill-tag") (lit "No specific skills identified") []]
         end.
Proof.
  pose (q1 := snd ((set_text experienceLevel (experience_level a) ;;
                    set_text skillCount (toString (skill_count a)) ;;
                    set_children domainsList []) p)).
  destruct (domains_block_run (domains a) q1 eq_refl) as (p2 & E2 & C2 & O2).
  pose (q3 := snd (set_children skillsList [] p2)).
  destruct (skills_block_run (skills a) q3 eq_refl) as (p4 & E4 & C4 & O4).
  exists p4. split; [|split; [|exact C4]].
  - change (displayAnalysis (Some a) p)
      with ((domains_block (domains a) ;;
             set_children skillsList [] ;;
             skills_block (skills a)) q1).
    rewrite bind_run, E2. exact E4.
  - rewrite (O4 domainsList) by discriminate. exact C2.
Qed.

End Tags.

(** What the code renders for the domains: one tag per domain, in order,
    whose text is the domain with its first underscore turned into a space,
    in upper case; a single "General" tag when the list is empty or absent. *)
Lemma domain_tags (a : AnalysisResult) (p : Page) :
  children (elem (snd (displayAnalysis (Some a) p)) domainsList)
  = match domains a with
    | Some ((_ :: _) as l) =>
        map (fun d => Tag (lit "domain-tag")
                          (toUpperCase (replace underscore [space] d)) []) l
    | _ => [Tag (lit "domain-tag") (lit "General") []]
    end.
Proof.
  destruct (displayAnalysis_children a p) as (p' & E & D & _).
  rewrite E. exact D.
Qed.

Lemma replace_once_enough (s : jsstring) :
  (count_occ N.eq_dec s underscore <= 1)%nat ->
  replace underscore [space] s = replace_g underscore [space] s.
Proof.
  induction s as [|c s IH]; simpl; [reflexivity|].
  destruct (N.eq_dec c underscore) as [->|N].
  - rewrite N.eqb_refl. intros H. simpl. f_equal.
    assert (Z0 : count_occ N.eq_dec s underscore = 0%nat) by lia.
    clear -Z0. induction s as [|c s IH]; simpl in *; [reflexivity|].
    destruct (N.eq_dec c underscore) as [->|N]; [discriminate|].
    apply N.eqb_neq in N. rewrite N. f_equal. now apply IH.
  - intros H. apply N.eqb_neq in N. rewrite N. f_equal. now apply IH.
Qed.

(** On a domain with at most one underscore the tag is the one that the
    specification asks for. *)
Lemma domain_tag_one_underscore (d : jsstring) :
  (count_occ N.eq_dec d underscore <= 1)%nat ->
  domain_tag d = Tag (lit "domain-tag") (domain_text_spec d) [].
Proof.
  intros H. unfold domain_tag, domain_text_spec.
  now rewrite replace_once_enough.
Qed.

(** C3, on the code.  For the domain "machine_learning_ops" the rendered
    tag is "MACHINE LEARNING_OPS": only the first underscore is replaced,
    where the specification replaces each of them ("MACHINE LEARNING
    OPS"). *)
Theorem second_underscore_is_kept :
  domains sample_analysis = Some [lit "machine_learning_ops"]
  /\ children (elem (snd (displayAnalysis (Some sample_analysis) initial_page))
                 domainsList)
     = [Tag (lit "domain-tag") (lit "MACHINE LEARNING_OPS") []]
  /\ domain_text_spec (lit "machine_learning_ops") = lit "MACHINE LEARNING OPS"
  /\ lit "MACHINE LEARNING_OPS" <> lit "MACHINE LEARNING OPS".
Proof.
  split; [reflexivity|]. split; [|split; [reflexivity | discriminate]].
  rewrite domain_tags. reflexivity.
Qed.

(** C8.  The first ten skills are rendered as they are, one tag each; a
    list of more than ten gets one more tag, "+N more", where N is the
    length of the list minus ten, and a list of ten or fewer gets none; a
    list that is empty or absent gives the single tag "No specific skills
    identified". *)
Theorem skill_tags (a : AnalysisResult) (p : Page) :
  let tags := children (elem (snd (displayAnalysis (Some a) p)) skillsList) in
  fst (displayAnalysis (Some a) p) = Normal tt
  /\ (forall ss, skills a = Some ss -> ss <> [] ->
      (List.length ss <= 10)%nat ->
      tags = map (fun s => Tag (lit "skill-tag") s []) ss)
  /\ (forall ss, skills a = Some ss ->
      (List.length ss > 10)%nat ->
      tags = map (fun s => Tag (lit "skill-tag") s []) (firstn 10 ss)
             ++ [Tag (lit "skill-tag")
                     (lit "+" ++ toString (Z.of_nat (List.length ss - 10))
                      ++ lit " more")
                     [(lit "background", lit "#667eea"); (lit "color", lit "white")]])
  /\ (skills a = None \/ skills a = Some [] ->
      tags = [Tag (lit "skill-tag") (lit "No specific skills identified") []]).
Proof.
  intros tags. subst tags.
  destruct (displayAnalysis_children a p) as (p' & E & _ & S).
  rewrite E. simpl fst. simpl snd. split; [reflexivity|]. rewrite S.
  split; [|split].
  - intros ss -> Hne Hlen. destruct ss as [|s ss]; [now elim Hne|].
    destruct (Z.gtb_spec (Z.of_nat (List.length (s :: ss))) 10) as [G|_]; [lia|].
    rewrite app_nil_r. now rewrite firstn_all2 by lia.
  - intros ss -> Hlen. destruct ss as [|s ss]; [simpl in Hlen; lia|].
    destruct (Z.gtb_spec (Z.of_nat (List.length (s :: ss))) 10) as [_|L]; [|lia].
    unfold more_tag. repeat f_equal. lia.
  - intros [-> | ->]; reflexivity.
Qed.

Lemma skill_tags_witness :
  children (elem (snd (displayAnalysis (Some sample_analysis) initial_page))
              skillsList)
  = [Tag (lit "skill-tag") (lit "python") []; Tag (lit "skill-tag") (lit "sql") []].
Proof.
  apply (proj1 (proj2 (skill_tags sample_analysis initial_page))
           [lit "python"; lit "sql"] eq_refl).
  - discriminate.
  - simpl. lia.
Defined.

(** Twelve skills: ten tags and "+2 more". *)
Example twelve_skills :
  let a := {| experience_level := lit "Senior"; skill_count := 12;
              domains := None;
              skills := Some (List.repeat (lit "go") 12) |} in
  children (elem (snd (displayAnalysis (Some a) initial_page)) skillsList)
  = List.repeat (Tag (lit "skill-tag") (lit "go") []) 10
    ++ [Tag (lit "skill-tag") (lit "+2 more")
            [(lit "background", lit "#667eea"); (lit "color", lit "white")]].
Proof. vm_compute. reflexivity. Qed.

(** ** The stars of a rating *)





(** The same ratings as the floating-point numbers that the host reads
    from the decimals 3.4, 3.5, 4.3, 4.7 and 5.0. *)
Example stars_of_binary64 :
  stars_of (binary64 7656119366529843 (-51)) = Normal (List.repeat star 3)
  /\ stars_of (binary64 7 (-1)) = Normal (List.repeat star 4)
  /\ stars_of (binary64 4841369599423283 (-50)) = Normal (List.repeat star 4)
  /\ stars_of (binary64 5291729562160333 (-50)) = Normal (List.repeat star 5)
  /\ stars_of (binary64 5 0) = Normal (List.repeat star 5).
Proof. repeat split. Qed.

(** ** Decimal digits *)

Section Digits.

Lemma digits_aux_app (fuel : nat) :
  forall n acc, digits_aux fuel n acc = digits_aux fuel n [] ++ acc.
Proof.
  induction fuel as [|f IH]; intros n acc; simpl; [reflexivity|].
  destruct (N.eqb (n / 10) 0); [reflexivity|].
  rewrite (IH _ (_ :: acc)), (IH _ [_]), <- app_assoc. reflexivity.
Qed.

(** Any fuel that bounds the number of bits gives the same digits. *)
Lemma digits_aux_fuel (f : nat) :
  forall g n acc,
    (n < 2 ^ N.of_nat f)%N -> (n < 2 ^ N.of_nat g)%N ->
    digits_aux (S f) n acc = digits_aux (S g) n acc.
Proof.
  induction f as [|f IH]; intros g n acc Hf Hg.
  - simpl in Hf. assert (n = 0%N) by lia. subst n. reflexivity.
  - destruct g as [|g].
    + simpl in Hg. assert (n = 0%N) by lia. subst n. reflexivity.
    + rewrite Nat2N.inj_succ, N.pow_succ_r' in Hf, Hg.
      change (digits_aux (S (S f)) n acc)
        with (if N.eqb (n / 10) 0 then (48 + n mod 10)%N :: acc
              else digits_aux (S f) (n / 10) ((48 + n mod 10)%N :: acc)).
      change (digits_aux (S (S g)) n acc)
        with (if N.eqb (n / 10) 0 then (48 + n mod 10)%N :: acc
              else digits_aux (S g) (n / 10) ((48 + n mod 10)%N :: acc)).
      destruct (N.eqb (n / 10) 0); [reflexivity|].
      apply IH; lia.
Qed.

Lemma size_bound (n : N) : (n < 2 ^ N.of_nat (N.to_nat (N.size n)))%N.
Proof. rewrite N2Nat.id. apply N.size_gt. Qed.

(** The digits of a number: those of its tenth, then its last digit. *)
Lemma digits_eq (n : N) :
  digits n = if (n <? 10)%N then [(48 + n)%N]
             else digits (n / 10) ++ [(48 + n mod 10)%N].
Proof.
  unfold digits at 1.
  change (digits_aux (S (N.to_nat (N.size n))) n [])
    with (if N.eqb (n / 10) 0 then [(48 + n mod 10)%N]
          else digits_aux (N.to_nat (N.size n)) (n / 10) [(48 + n mod 10)%N]).
  destruct (N.ltb_spec n 10) as [L|G].
  - replace (n / 10)%N with 0%N by lia. rewrite N.eqb_refl.
    replace (n mod 10)%N with n by lia. reflexivity.
  - destruct (N.eqb_spec (n / 10) 0) as [E|_]; [lia|].
    rewrite digits_aux_app. f_equal. unfold digits.
    pose proof (size_bound n) as B.
    destruct (N.to_nat (N.size n)) as [|f].
    + simpl in B. lia.
    + rewrite Nat2N.inj_succ, N.pow_succ_r' in B.
      apply digits_aux_fuel; [lia | apply size_bound].
Qed.

Lemma is_digit_char (d : N) : (d < 10)%N -> JSON.is_digit (48 + d) = true.
Proof.
  intros H. unfold JSON.is_digit. apply andb_true_iff.
  split; apply N.leb_le; lia.
Qed.

Lemma digits_all_digits (n : N) : forallb JSON.is_digit (digits n) = true.
Proof.
  induction (N.lt_wf_0 n) as [n _ IH]. rewrite digits_eq.
  destruct (N.ltb_spec n 10) as [L|G].
  - cbn [forallb]. now rewrite is_digit_char.
  - rewrite forallb_app. rewrite IH by lia. cbn [forallb andb].
    rewrite is_digit_char by lia. reflexivity.
Qed.

Lemma digits_nonempty (n : N) : digits n <> [].
Proof.
  rewrite digits_eq. destruct (n <? 10)%N; [discriminate|].
  destruct (digits (n / 10)); discriminate.
Qed.

Lemma decimal_value_snoc (l : jsstring) (d : N) :
  decimal_value (l ++ [d]) = (10 * decimal_value l + (d - 48))%N.
Proof. unfold decimal_value. now rewrite fold_left_app. Qed.

(** The digits of [n] denote [n]. *)
Lemma decimal_value_digits (n : N) : decimal_value (digits n) = n.
Proof.
  induction (N.lt_wf_0 n) as [n _ IH]. rewrite digits_eq.
  destruct (N.ltb_spec n 10) as [L|G].
  - unfold decimal_value. cbn [fold_left]. lia.
  - rewrite decimal_value_snoc, IH by lia. lia.
Qed.

Lemma digits_length_3 (n : N) : (n < 1000)%N -> (List.length (digits n) <= 3)%nat.
Proof.
  intros H. rewrite digits_eq. destruct (N.ltb_spec n 10); [simpl; lia|].
  rewrite length_app, digits_eq.
  destruct (N.ltb_spec (n / 10) 10); [simpl; lia|].
  rewrite length_app, digits_eq.
  destruct (N.ltb_spec (n / 10 / 10) 10); [simpl; lia|]. lia.
Qed.

(** From a thousand on, the digits end with the last three. *)
Lemma digits_thousands (n : N) :
  (1000 <= n)%N -> digits n = digits (n / 1000) ++ last3 n.
Proof.
  intros H. rewrite digits_eq.
  destruct (N.ltb_spec n 10); [lia|].
  rewrite (digits_eq (n / 10)).
  destruct (N.ltb_spec (n / 10) 10); [lia|].
  rewrite (digits_eq (n / 10 / 10)).
  destruct (N.ltb_spec (n / 10 / 10) 10); [lia|].
  replace (n / 10 / 10 / 10)%N with (n / 1000)%N by lia.
  replace (n / 10 / 10 mod 10)%N with (n / 100 mod 10)%N by lia.
  rewrite <- !app_assoc. reflexivity.
Qed.

End Digits.

(** ** The thousands separators *)

Section Separators.

Lemma list_ind3 {A} (P : list A -> Prop) :
  P [] -> (forall a, P [a]) -> (forall a b, P [a; b]) ->
  (forall a b c l, P l -> P (a :: b :: c :: l)) ->
  forall l, P l.
Proof.
  intros H0 H1 H2 H3.
  assert (H : forall l, P l /\ (forall a, P (a :: l))
                        /\ (forall a b, P (a :: b :: l))).
  { induction l as [|x l (IH0 & IH1 & IH2)]; [now repeat split|].
    split; [apply IH1|]. split; [intros a; apply IH2|].
    intros a b. now apply H3. }
  intros l. apply H.
Qed.

Lemma starts_with_digit_digits (s : jsstring) :
  forallb JSON.is_digit s = true ->
  starts_with_digit s = negb (Nat.eqb (List.length s) 0).
Proof.
  destruct s as [|c s]; [reflexivity|]. simpl.
  intros H. now apply andb_true_iff in H as [-> _].
Qed.

(** On a run of digits that ends the string, the lookahead holds when the
    length of the run is a positive multiple of three. *)
Lemma lookahead_digits (s : jsstring) :
  forallb JSON.is_digit s = true ->
  lookahead s = (mult3 (List.length s) && negb (Nat.eqb (List.length s) 0))%bool.
Proof.
  induction s as [| a | a b | a b c rest IH] using list_ind3;
    try reflexivity.
  intros H. cbn [forallb] in H.
  apply andb_true_iff in H as [Ha H]. apply andb_true_iff in H as [Hb H].
  apply andb_true_iff in H as [Hc H].
  cbn [lookahead List.length mult3 Nat.eqb]. rewrite Ha, Hb, Hc, (IH H).
  rewrite (starts_with_digit_digits rest H).
  destruct rest; [reflexivity|]. cbn [List.length Nat.eqb negb].
  now rewrite andb_true_r, orb_false_r.
Qed.

Lemma group3_snoc (l : jsstring) (x : N) :
  group3 (l ++ [x]) = group3 l ++ comma_if (List.length l) ++ [x].
Proof.
  induction l as [| a | a b | a b c rest IH] using list_ind3;
    try reflexivity.
  change ((a :: b :: c :: rest) ++ [x]) with (a :: b :: c :: (rest ++ [x])).
  destruct rest as [|d rest]; [reflexivity|].
  change (group3 (a :: b :: c :: (d :: rest) ++ [x]))
    with (a :: b :: c :: comma :: group3 ((d :: rest) ++ [x])).
  rewrite IH. reflexivity.
Qed.

Lemma rev_comma_if (n : nat) : rev (comma_if n) = comma_if n.
Proof. unfold comma_if. now destruct (_ && _)%bool. Qed.

Lemma with_separators_cons (c : N) (r : jsstring) :
  with_separators (c :: r) = c :: comma_if (List.length r) ++ with_separators r.
Proof.
  unfold with_separators. cbn [rev]. rewrite group3_snoc, !rev_app_distr.
  rewrite rev_comma_if, length_rev. reflexivity.
Qed.

Lemma is_digit_word (c : N) : JSON.is_digit c = true -> is_word c = true.
Proof. intros H. unfold is_word. now rewrite H. Qed.

(** Inside a number, the pattern matches before each run of digits whose
    length is a positive multiple of three. *)
Lemma insert_commas_digits (s : jsstring) :
  forallb JSON.is_digit s = true ->
  forall prev, is_word prev = true ->
    insert_commas (Some prev) s
    = comma_if (List.length s) ++ with_separators s.
Proof.
  induction s as [|c r IH]; intros H prev Hp.
  - unfold insert_commas, matches_here. cbn [word_at hd_error lookahead].
    rewrite Hp. reflexivity.
  - pose proof H as H'. cbn [forallb] in H'.
    apply andb_true_iff in H' as [Hc Hr].
    cbn [insert_commas]. unfold matches_here.
    cbn [word_at hd_error]. rewrite Hp, (is_digit_word c Hc).
    rewrite (lookahead_digits (c :: r) H).
    rewrite (IH Hr c (is_digit_word c Hc)), with_separators_cons.
    reflexivity.
Qed.

(** At the start of a number there is no comma. *)
Lemma insert_commas_number (s : jsstring) :
  forallb JSON.is_digit s = true ->
  insert_commas None s = with_separators s.
Proof.
  destruct s as [|c r]; [reflexivity|]. intros H.
  pose proof H as H'. cbn [forallb] in H'.
  apply andb_true_iff in H' as [Hc Hr].
  cbn [insert_commas]. unfold matches_here.
  cbn [word_at hd_error]. rewrite (is_digit_word c Hc). cbn [Bool.eqb andb app].
  rewrite (insert_commas_digits r Hr c (is_digit_word c Hc)).
  now rewrite with_separators_cons.
Qed.

Lemma group3_short (l : jsstring) : (List.length l <= 3)%nat -> group3 l = l.
Proof.
  destruct l as [|a [|b [|c [|d l]]]]; try reflexivity. simpl. lia.
Qed.

Lemma with_separators_short (l : jsstring) :
  (List.length l <= 3)%nat -> with_separators l = l.
Proof.
  intros H. unfold with_separators.
  rewrite group3_short by now rewrite length_rev. apply rev_involutive.
Qed.

Lemma with_separators_last3 (l : jsstring) (a b c : N) :
  l <> [] -> with_separators (l ++ [a; b; c]) = with_separators l ++ [comma; a; b; c].
Proof.
  intros H. unfold with_separators. rewrite rev_app_distr. cbn [rev app].
  destruct (rev l) as [|x r] eqn:E.
  - apply (f_equal (@rev N)) in E. rewrite rev_involutive in E. now elim H.
  - change (group3 (c :: b :: a :: x :: r))
      with (c :: b :: a :: comma :: group3 (x :: r)).
    cbn [rev]. rewrite <- !app_assoc. reflexivity.
Qed.

End Separators.

(** Below [2^53] the script prints every digit of an integer. *)
Lemma toString_safe (n : Z) :
  0 <= n < two53 -> toString n = digits (Z.to_N n).
Proof.
  intros H. unfold toString, number_text.
  destruct (Z.ltb_spec n 0) as [L|_]; [lia|].
  destruct (Z.ltb_spec n two53) as [_|L]; [reflexivity|lia].
Qed.

Lemma toString_safe_negative (n : Z) :
  - two53 < n < 0 -> toString n = 45%N :: digits (Z.to_N (- n)).
Proof.
  intros H. unfold toString, number_text.
  destruct (Z.ltb_spec n 0) as [_|L]; [|lia].
  destruct (Z.ltb_spec (- n) two53) as [_|L]; [reflexivity|lia].
Qed.

(** C9.  For a non-negative integer [n] below [2^53], [formatNumber n] is
    the decimal representation of [n] with a comma after every third digit
    counted from the right; below 1000 there is no comma, and from 1000 on
    the result is that of [n / 1000], a comma, and the last three digits of
    [n].  So 1234567 gives "1,234,567" and 999 gives "999". *)
Theorem formatNumber_groups :
  (forall n : Z, 0 <= n < two53 ->
     decimal_value (toString n) = Z.to_N n
     /\ formatNumber n = with_separators (toString n)
     /\ (n < 1000 -> formatNumber n = toString n)
     /\ (1000 <= n ->
         formatNumber n = formatNumber (n / 1000) ++ comma :: last3 (Z.to_N n)))
  /\ formatNumber 1234567 = lit "1,234,567"
  /\ formatNumber 999 = lit "999".
Proof.
  split; [|split; reflexivity].
  intros n Hn. unfold formatNumber. rewrite (toString_safe n Hn).
  pose proof (insert_commas_number _ (digits_all_digits (Z.to_N n))) as E.
  split; [apply decimal_value_digits|]. split; [exact E|]. split.
  - intros H. rewrite E. apply with_separators_short, digits_length_3. lia.
  - intros H. rewrite (toString_safe (n / 1000)) by (unfold two53 in *; lia).
    rewrite E, (insert_commas_number _ (digits_all_digits (Z.to_N (n / 1000)))).
    rewrite (digits_thousands (Z.to_N n)) by lia.
    replace (Z.to_N n / 1000)%N with (Z.to_N (n / 1000)) by lia.
    unfold last3. apply with_separators_last3, digits_nonempty.
Qed.

Lemma formatNumber_groups_witness :
  formatNumber 1000 = formatNumber 1 ++ comma :: last3 1000.
Proof.
  apply (proj1 formatNumber_groups 1000); unfold two53; lia.
Defined.

(** C9, the claim as the specification has it, for every non-negative
    integer: from [2^53] on the script prints the shortest decimal that
    reads back as the number, not the digits of the integer.  [2^60] is
    1152921504606846976 and is shown as 1,152,921,504,606,847,000, and
    [10^21] is shown as 1e+21, without a comma. *)
Lemma formatNumber_above_two53 :
  0 <= 2 ^ 60
  /\ formatNumber (2 ^ 60) = lit "1,152,921,504,606,847,000"
  /\ with_separators (digits (Z.to_N (2 ^ 60))) = lit "1,152,921,504,606,846,976"
  /\ formatNumber (2 ^ 60) <> with_separators (digits (Z.to_N (2 ^ 60)))
  /\ formatNumber (10 ^ 21) = lit "1e+21"
  /\ formatNumber (10 ^ 21) <> with_separators (digits (Z.to_N (10 ^ 21))).
Proof.
  split; [lia|].
  split; [vm_compute; reflexivity|].
  split; [vm_compute; reflexivity|].
  split; [vm_compute; discriminate|].
  split; [vm_compute; reflexivity|].
  vm_compute; discriminate.
Qed.

(** ** Decoding the sources *)

Section Decoding.

Lemma replace_g_app (pat : N) (by_ s t : jsstring) :
  replace_g pat by_ (s ++ t) = replace_g pat by_ s ++ replace_g pat by_ t.
Proof.
  induction s as [|c s IH]; simpl; [reflexivity|].
  destruct (N.eqb c pat); rewrite IH; [now rewrite app_assoc | reflexivity].
Qed.

Lemma replace_g_absent (pat : N) (by_ s : jsstring) :
  forallb (fun c => negb (N.eqb c pat)) s = true -> replace_g pat by_ s = s.
Proof.
  induction s as [|c s IH]; simpl; [reflexivity|]. intros H.
  apply andb_true_iff in H as [Hc Hs]. apply negb_true_iff in Hc.
  now rewrite Hc, IH.
Qed.

Lemma plain_no_apostrophe (s : jsstring) :
  forallb plain s = true ->
  forallb (fun c => negb (N.eqb c apostrophe)) s = true.
Proof.
  intros H. rewrite forallb_forall in *. intros c Hc. specialize (H c Hc).
  unfold plain in H. apply negb_true_iff in H.
  apply orb_false_iff in H as [H _]. apply orb_false_iff in H as [H _].
  apply orb_false_iff in H as [_ H]. unfold apostrophe. now rewrite H.
Qed.

Lemma ws_no_apostrophe (s : jsstring) :
  forallb JSON.is_ws s = true ->
  forallb (fun c => negb (N.eqb c apostrophe)) s = true.
Proof.
  intros H. rewrite forallb_forall in *. intros c Hc. specialize (H c Hc).
  unfold JSON.is_ws in H.
  destruct (N.eqb_spec c apostrophe) as [->|]; [discriminate H | reflexivity].
Qed.

Lemma join_cons2 (sep x y : jsstring) (l : list jsstring) :
  join sep (x :: y :: l) = x ++ sep ++ join sep (y :: l).
Proof. reflexivity. Qed.

Lemma parse_elements_S (f : nat) (s : jsstring) :
  JSON.parse_elements (S f) s
  = match JSON.parse_value f s with
    | JSON.Ok v rest =>
        match JSON.skip_ws rest with
        | c :: r =>
            if N.eqb c 93 then JSON.Ok [v] r
            else if N.eqb c 44 then
              match JSON.parse_elements f (JSON.skip_ws r) with
              | JSON.Ok l rest' => JSON.Ok (v :: l) rest'
              | JSON.Bad => JSON.Bad
              | JSON.OutOfFuel => JSON.OutOfFuel
              end
            else JSON.Bad
        | [] => JSON.Bad
        end
    | JSON.Bad => JSON.Bad
    | JSON.OutOfFuel => JSON.OutOfFuel
    end.
Proof. reflexivity. Qed.

Lemma parse_value_string (f : nat) (s : jsstring) :
  JSON.parse_value (S f) (dquote :: s)
  = match JSON.string_body s with
    | Some (t, rest) => JSON.Ok (JSON.Str t) rest
    | None => JSON.Bad
    end.
Proof. reflexivity. Qed.

Lemma parse_value_array (f : nat) (s : jsstring) :
  JSON.parse_value (S f) (91%N :: s)
  = match JSON.skip_ws s with
    | c' :: r' =>
        if N.eqb c' 93 then JSON.Ok (JSON.Arr []) r'
        else
          match JSON.parse_elements f (JSON.skip_ws s) with
          | JSON.Ok l rest => JSON.Ok (JSON.Arr l) rest
          | JSON.Bad => JSON.Bad
          | JSON.OutOfFuel => JSON.OutOfFuel
          end
    | [] => JSON.Bad
    end.
Proof. reflexivity. Qed.

Variables pre post : jsstring.
Hypothesis pre_ws : forallb JSON.is_ws pre = true.
Hypothesis post_ws : forallb JSON.is_ws post = true.



(** A string of plain characters is read up to its closing quote. *)
Lemma string_body_plain (u rest : jsstring) :
  forallb plain u = true ->
  JSON.string_body (u ++ dquote :: rest) = Some (u, rest).
Proof.
  induction u as [|c u IH]; [reflexivity|]. intros H. cbn [forallb] in H.
  apply andb_true_iff in H as [Hc Hu]. unfold plain in Hc.
  apply negb_true_iff in Hc.
  apply orb_false_iff in Hc as [Hc H32]. apply orb_false_iff in Hc as [Hc H92].
  apply orb_false_iff in Hc as [H34 _].
  cbn [app JSON.string_body]. now rewrite H34, H92, H32, (IH Hu).
Qed.

Lemma skip_ws_app (w s : jsstring) :
  forallb JSON.is_ws w = true -> JSON.skip_ws (w ++ s) = JSON.skip_ws s.
Proof.
  induction w as [|c w IH]; [reflexivity|]. intros H. cbn [forallb] in H.
  apply andb_true_iff in H as [Hc Hw]. cbn [app JSON.skip_ws].
  now rewrite Hc, IH.
Qed.

(** The elements of a list literal of plain strings are read back, in
    order, with any fuel above their number. *)
Lemma parse_elements_join (l : list jsstring) :
  forallb (forallb plain) l = true -> l <> [] ->
  forall fuel rest, (List.length l < fuel)%nat ->
    JSON.parse_elements fuel
      (join (pre ++ comma :: post) (map (quoted dquote) l) ++ 93%N :: rest)
    = JSON.Ok (map JSON.Str l) rest.
Proof.
  induction l as [|u l IH]; intros H Hne fuel rest Hf; [now elim Hne|].
  cbn [forallb] in H. apply andb_true_iff in H as [Hu Hl].
  destruct fuel as [|[|f]]; [simpl in Hf; lia | simpl in Hf; lia |].
  destruct l as [|v l].
  - cbn [map join]. unfold quoted. cbn [app].
    rewrite <- app_assoc. cbn [app].
    rewrite parse_elements_S, parse_value_string.
    rewrite (string_body_plain u (93%N :: rest) Hu). reflexivity.
  - assert (E : join (pre ++ comma :: post) (map (quoted dquote) (u :: v :: l))
                  ++ 93%N :: rest
                = dquote :: u ++ dquote :: pre ++ comma :: post
                    ++ (join (pre ++ comma :: post) (map (quoted dquote) (v :: l))
                        ++ 93%N :: rest)).
    { change (map (quoted dquote) (u :: v :: l))
        with (quoted dquote u :: quoted dquote v :: map (quoted dquote) l).
      rewrite join_cons2.
      change (quoted dquote v :: map (quoted dquote) l)
        with (map (quoted dquote) (v :: l)).
      set (J := join _ (map _ (v :: l))). unfold quoted.
      cbn [app]. repeat (rewrite <- app_assoc; cbn [app]).
      reflexivity. }
    rewrite E.
    assert (IH' := IH Hl ltac:(discriminate) (S f) rest ltac:(simpl in *; lia)).
    rewrite parse_elements_S, parse_value_string, (string_body_plain u _ Hu).
    rewrite (skip_ws_app pre _ pre_ws).
    change (JSON.skip_ws (comma :: ?x)) with (comma :: x).
    change (N.eqb comma 93) with false. change (N.eqb comma 44) with true.
    cbv iota. rewrite (skip_ws_app post _ post_ws).
    assert (W : forall s, JSON.skip_ws
                  (join (pre ++ comma :: post) (map (quoted dquote) (v :: l)) ++ s)
                = join (pre ++ comma :: post) (map (quoted dquote) (v :: l)) ++ s).
    { intros s. destruct l; reflexivity. }
    rewrite W, IH'. reflexivity.
Qed.

Lemma length_join (q : N) (l : list jsstring) :
  (List.length l <= List.length (join (pre ++ comma :: post) (map (quoted q) l)))%nat.
Proof.
  induction l as [|u l IH]; [simpl; lia|].
  destruct l as [|v l].
  - cbn [map join]. unfold quoted. simpl. lia.
  - change (map (quoted q) (u :: v :: l))
      with (quoted q u :: quoted q v :: map (quoted q) l).
    rewrite join_cons2, !length_app.
    change (quoted q v :: map (quoted q) l) with (map (quoted q) (v :: l)).
    cbn [List.length] in *. lia.
Qed.

(** [JSON.parse] reads a list literal of plain strings back. *)
Lemma parse_encode_seq (l : list jsstring) :
  forallb (forallb plain) l = true -> l <> [] ->
  JSON.parse (encode_seq dquote pre post l) = Normal (JSON.Arr (map JSON.Str l)).
Proof.
  intros H Hne. unfold JSON.parse, JSON.parse_text, JSON.fuel_for.
  set (body := join (pre ++ comma :: post) (map (quoted dquote) l)).
  assert (B : exists s, body = dquote :: s).
  { subst body. destruct l as [|u [|v l]]; [now elim Hne| |];
      cbn [map join]; unfold quoted; eexists; reflexivity. }
  destruct B as (s & Bs).
  assert (L : (List.length l <= List.length body)%nat) by apply length_join.
  unfold encode_seq. fold body.
  remember (2 * List.length (91%N :: body ++ [93%N]))%nat as n eqn:En.
  assert (Hn : (List.length l < S n)%nat).
  { subst n. rewrite length_cons, length_app. lia. }
  replace (n + 2)%nat with (S (S n)) by lia.
  cbn [JSON.skip_ws JSON.is_ws N.eqb Pos.eqb orb].
  rewrite parse_value_array.
  assert (W : JSON.skip_ws (body ++ [93%N]) = body ++ [93%N])
    by (rewrite Bs; reflexivity).
  rewrite W. rewrite Bs at 1. cbn [app N.eqb Pos.eqb dquote].
  subst body. rewrite (parse_elements_join l H Hne (S n) [] Hn). reflexivity.
Qed.

End Decoding.

(** ** The fuel of the parser *)

Section Fuel.

Import JSON.

Lemma skip_ws_length (s : jsstring) :
  (List.length (skip_ws s) <= List.length s)%nat.
Proof.
  induction s as [|c s IH]; simpl; [lia|].
  destruct (is_ws c); simpl; lia.
Qed.

Lemma skip_ws_cons_length (s r : jsstring) (c : N) :
  skip_ws s = c :: r -> (List.length r < List.length s)%nat.
Proof.
  intros H. pose proof (skip_ws_length s) as L. rewrite H in L.
  simpl in L. lia.
Qed.

Lemma string_body_length (n : nat) :
  forall s t r, (List.length s <= n)%nat ->
    string_body s = Some (t, r) -> (List.length r < List.length s)%nat.
Proof.
  induction n as [|n IH]; intros s t r Hn H.
  - destruct s; [discriminate H | simpl in Hn; lia].
  - destruct s as [|c s]; [discriminate H|]. cbn [string_body] in H.
    destruct (N.eqb c 34).
    { injection H as <- <-. simpl. lia. }
    destruct (N.eqb c 92).
    + destruct s as [|e s]; [discriminate H|].
      destruct (N.eqb e 117).
      * destruct s as [|h1 [|h2 [|h3 [|h4 s]]]]; try discriminate H.
        destruct (hex_val h1), (hex_val h2), (hex_val h3), (hex_val h4);
          try discriminate H.
        destruct (string_body s) as [[t' r']|] eqn:E; [|discriminate H].
        injection H as <- <-.
        apply IH in E; simpl in *; lia.
      * destruct (escape e); [|discriminate H].
        destruct (string_body s) as [[t' r']|] eqn:E; [|discriminate H].
        injection H as <- <-.
        apply IH in E; simpl in *; lia.
    + destruct (N.ltb c 32); [discriminate H|].
      destruct (string_body s) as [[t' r']|] eqn:E; [|discriminate H].
      injection H as <- <-.
      apply IH in E; simpl in *; lia.
Qed.

Lemma span_digits_length (s d r : jsstring) :
  span_digits s = (d, r) -> (List.length r <= List.length s)%nat.
Proof.
  revert d r. induction s as [|c s IH]; intros d r H; simpl in H.
  - injection H as <- <-. simpl. lia.
  - destruct (is_digit c).
    + destruct (span_digits s) as [d' r'] eqn:E. injection H as <- <-.
      specialize (IH _ _ eq_refl). simpl. lia.
    + injection H as <- <-. simpl. lia.
Qed.

Lemma number_length (s lx r : jsstring) :
  number s = Some (lx, r) -> (List.length r < List.length s)%nat.
Proof.
  unfold number. intros H.
  assert (I : forall s1 i s2, number_int s1 = Some (i, s2) ->
              (List.length s2 < List.length s1)%nat).
  { intros s1 i s2 Hi. unfold number_int in Hi.
    destruct s1 as [|c s1]; [discriminate Hi|].
    destruct (N.eqb c 48); [injection Hi as <- <-; simpl; lia|].
    destruct (is_digit c); [|discriminate Hi].
    destruct (span_digits s1) as [d' r'] eqn:E. injection Hi as <- <-.
    apply span_digits_length in E. simpl. lia. }
  assert (F : forall s1 i s2, number_frac s1 = Some (i, s2) ->
              (List.length s2 <= List.length s1)%nat).
  { intros s1 i s2 Hi. unfold number_frac in Hi.
    destruct s1 as [|c s1]; [injection Hi as <- <-; simpl; lia|].
    destruct (N.eqb c 46); [|injection Hi as <- <-; simpl; lia].
    destruct (span_digits s1) as [[|d0 d'] r'] eqn:E; [discriminate Hi|].
    injection Hi as <- <-. apply span_digits_length in E. simpl. lia. }
  assert (X : forall s1 i s2, number_exp s1 = Some (i, s2) ->
              (List.length s2 <= List.length s1)%nat).
  { intros s1 i s2 Hi. unfold number_exp in Hi.
    destruct s1 as [|c s1]; [injection Hi as <- <-; simpl; lia|].
    destruct (N.eqb c 101 || N.eqb c 69)%bool;
      [|injection Hi as <- <-; simpl; lia].
    destruct s1 as [|x s1].
    - simpl in Hi. discriminate Hi.
    - destruct (N.eqb x 43 || N.eqb x 45)%bool.
      + destruct (span_digits s1) as [[|d0 d'] r'] eqn:E; [discriminate Hi|].
        injection Hi as <- <-. apply span_digits_length in E. simpl. lia.
      + destruct (span_digits (x :: s1)) as [[|d0 d'] r'] eqn:E;
          [discriminate Hi|].
        injection Hi as <- <-. apply span_digits_length in E. simpl in *. lia. }
  destruct s as [|c s].
  - simpl in H. discriminate H.
  - destruct (N.eqb c 45).
    + destruct (number_int s) as [[i s2]|] eqn:Ei; [|discriminate H].
      destruct (number_frac s2) as [[f s3]|] eqn:Ef; [|discriminate H].
      destruct (number_exp s3) as [[e s4]|] eqn:Ee; [|discriminate H].
      injection H as <- <-.
      apply I in Ei. apply F in Ef. apply X in Ee. simpl. lia.
    + destruct (number_int (c :: s)) as [[i s2]|] eqn:Ei; [|discriminate H].
      destruct (number_frac s2) as [[f s3]|] eqn:Ef; [|discriminate H].
      destruct (number_exp s3) as [[e s4]|] eqn:Ee; [|discriminate H].
      injection H as <- <-.
      apply I in Ei. apply F in Ef. apply X in Ee. simpl in *. lia.
Qed.

Lemma strip_prefix_length (w s r : jsstring) :
  strip_prefix w s = Some r ->
  (List.length r + List.length w = List.length s)%nat.
Proof.
  revert s. induction w as [|x w IH]; intros s H; simpl in H.
  - injection H as <-. simpl. lia.
  - destruct s as [|y s]; [discriminate H|].
    destruct (N.eqb x y); [|discriminate H].
    apply IH in H. simpl. lia.
Qed.

End Fuel.

Section Consumption.

Import JSON.

Ltac break_hyp H :=
  match type of H with
  | context [match ?x with _ => _ end] => destruct x eqn:?; try discriminate H
  end.

Ltac length_facts :=
  repeat match goal with
    | E : skip_ws ?s = _ :: _ |- _ => apply skip_ws_cons_length in E
    | E : string_body ?s = Some _ |- _ =>
        apply (string_body_length (List.length s) _ _ _ (le_n _)) in E
    | E : strip_prefix _ _ = Some _ |- _ => apply strip_prefix_length in E
    | E : number _ = Some _ |- _ => apply number_length in E
    end.

(** What a successful parse leaves is shorter than what it was given. *)
Lemma parse_consumes (fuel : nat) :
  (forall s v r, parse_value fuel s = Ok v r ->
                 (List.length r < List.length s)%nat)
  /\ (forall s l r, parse_elements fuel s = Ok l r ->
                    (List.length r < List.length s)%nat)
  /\ (forall s m r, parse_members fuel s = Ok m r ->
                    (List.length r < List.length s)%nat).
Proof.
  induction fuel as [|f (IHv & IHe & IHm)];
    [repeat split; intros; discriminate|].
  split; [|split].
  - intros s v r H. cbn [parse_value] in H.
    repeat break_hyp H; injection H as <- <-;
      repeat match goal with
        | E : parse_elements f _ = Ok _ _ |- _ => apply IHe in E
        | E : parse_members f _ = Ok _ _ |- _ => apply IHm in E
        end;
      length_facts; simpl in *; lia.
  - intros s l r H. cbn [parse_elements] in H.
    repeat break_hyp H; injection H as <- <-;
      repeat match goal with
        | E : parse_value f _ = Ok _ _ |- _ => apply IHv in E
        | E : parse_elements f _ = Ok _ _ |- _ => apply IHe in E
        end;
      pose proof skip_ws_length; length_facts; simpl in *;
      repeat match goal with
        | E : (List.length ?r < List.length (skip_ws ?x))%nat |- _ =>
            pose proof (skip_ws_length x); revert E
        end; intros; lia.
  - intros s m r H. cbn [parse_members] in H.
    repeat break_hyp H; injection H as <- <-;
      repeat match goal with
        | E : parse_value f _ = Ok _ _ |- _ => apply IHv in E
        | E : parse_members f _ = Ok _ _ |- _ => apply IHm in E
        end;
      length_facts; simpl in *;
      repeat match goal with
        | E : (List.length ?r < List.length (skip_ws ?x))%nat |- _ =>
            pose proof (skip_ws_length x); revert E
        end; intros; lia.
Qed.

End Consumption.

Section Enough.

Import JSON.

Ltac break_goal :=
  match goal with
  | |- context [match ?x with _ => _ end] => destruct x eqn:?
  end.

Ltac facts f :=
  repeat match goal with
    | E : parse_value f _ = Ok _ _ |- _ =>
        apply (proj1 (parse_consumes f)) in E
    | E : parse_elements f _ = Ok _ _ |- _ =>
        apply (proj1 (proj2 (parse_consumes f))) in E
    | E : parse_members f _ = Ok _ _ |- _ =>
        apply (proj2 (proj2 (parse_consumes f))) in E
    | E : skip_ws ?s = _ :: _ |- _ => apply skip_ws_cons_length in E
    | E : string_body ?s = Some _ |- _ =>
        apply (string_body_length (List.length s) _ _ _ (le_n _)) in E
    end.

Ltac skip_bounds :=
  repeat match goal with
    | |- context [List.length (skip_ws ?x)] =>
        lazymatch goal with
        | _ : (List.length (skip_ws x) <= List.length x)%nat |- _ => fail
        | _ => pose proof (skip_ws_length x)
        end
    | E : context [List.length (skip_ws ?x)] |- _ =>
        lazymatch goal with
        | _ : (List.length (skip_ws x) <= List.length x)%nat |- _ => fail
        | _ => pose proof (skip_ws_length x)
        end
    end.

(** With twice the length of the text in fuel, the parser never runs
    out. *)
Lemma parse_fuel_enough (fuel : nat) :
  (forall s, (2 * List.length s + 1 <= fuel)%nat ->
             parse_value fuel s <> OutOfFuel)
  /\ (forall s, (2 * List.length s + 2 <= fuel)%nat ->
                parse_elements fuel s <> OutOfFuel)
  /\ (forall s, (2 * List.length s + 2 <= fuel)%nat ->
                parse_members fuel s <> OutOfFuel).
Proof.
  induction fuel as [|f (IHv & IHe & IHm)];
    [repeat split; intros; lia|].
  split; [|split].
  - intros s Hs. cbn [parse_value].
    repeat break_goal; try discriminate.
    + exfalso. match goal with E : parse_members f ?x = OutOfFuel |- _ =>
        apply (IHm x); [|exact E] end.
      facts f. simpl in *. lia.
    + exfalso. match goal with E : parse_elements f ?x = OutOfFuel |- _ =>
        apply (IHe x); [|exact E] end.
      facts f. simpl in *. lia.
  - intros s Hs. cbn [parse_elements].
    repeat break_goal; try discriminate.
    + exfalso. match goal with E : parse_elements f ?x = OutOfFuel |- _ =>
        apply (IHe x); [|exact E] end.
      facts f. skip_bounds. simpl in *. lia.
    + exfalso. match goal with E : parse_value f ?x = OutOfFuel |- _ =>
        apply (IHv x); [|exact E] end.
      lia.
  - intros s Hs. cbn [parse_members].
    repeat break_goal; try discriminate.
    + exfalso. match goal with E : parse_members f ?x = OutOfFuel |- _ =>
        apply (IHm x); [|exact E] end.
      facts f. skip_bounds. simpl in *. lia.
    + exfalso. match goal with E : parse_value f ?x = OutOfFuel |- _ =>
        apply (IHv x); [|exact E] end.
      facts f. skip_bounds. simpl in *. lia.
Qed.

(** [JSON.parse] never answers for lack of fuel: a text that it refuses
    is refused by the grammar. *)
Lemma JSON_parse_fuel (text : jsstring) :
  parse_text (fuel_for text) text <> OutOfFuel.
Proof.
  unfold parse_text, fuel_for.
  destruct (parse_value (2 * List.length text + 2) (skip_ws text)) eqn:E.
  - destruct (skip_ws rest); discriminate.
  - discriminate.
  - exfalso. apply (proj1 (parse_fuel_enough _) _) in E; [exact E|].
    pose proof (skip_ws_length text). lia.
Qed.

End Enough.

(** ** The link of a course card *)

Lemma createCourseCard_link (course : Recommendation) (index : Z) (card : Card) :
  createCourseCard course index = Normal card ->
  card_link card = sourceLinks (sources course).
Proof.
  unfold createCourseCard. destruct (stars_of _); [|discriminate].
  intros H. injection H as <-. reflexivity.
Qed.

Section Link.

Lemma strip_prefix_app (w s : jsstring) :
  JSON.strip_prefix w (w ++ s) = Some s.
Proof.
  induction w as [|c w IH]; [reflexivity|].
  cbn [app JSON.strip_prefix]. now rewrite N.eqb_refl.
Qed.

Lemma attribute_value_closed (t rest : jsstring) :
  href_safe t = true -> attribute_value (t ++ dquote :: rest) = Some t.
Proof.
  induction t as [|c t IH]; intros H.
  - reflexivity.
  - cbn [href_safe forallb] in H. apply andb_true_iff in H as [Hc Ht].
    apply negb_true_iff in Hc.
    apply orb_false_iff in Hc as [Hc H0]. apply orb_false_iff in Hc as [Hc H13].
    apply orb_false_iff in Hc as [H34 H38].
    cbn [app attribute_value]. rewrite H34, H38, H13, H0. cbn [orb].
    now rewrite (IH Ht).
Qed.

Lemma anchor_eq (t : jsstring) :
  anchor t
  = (lit "<a href=" ++ [dquote]) ++ t
    ++ dquote :: lit " target=" ++ dquote :: lit "_blank" ++ dquote
       :: lit " rel=" ++ dquote :: lit "noopener noreferrer" ++ dquote
       :: lit " class=" ++ dquote :: lit "course-link" ++ dquote
       :: lit ">View Course " ++ 8594%N :: lit "</a>".
Proof.
  unfold anchor, attr. cbn [lit list_ascii_of_string map app].
  rewrite <- !app_assoc. reflexivity.
Qed.

Lemma href_of_anchor (t : jsstring) :
  href_safe t = true -> href_of (anchor t) = Some t.
Proof.
  intros H. unfold href_of. rewrite anchor_eq, strip_prefix_app.
  now apply attribute_value_closed.
Qed.

Lemma plain_href_safe (t : jsstring) :
  forallb plain t = true ->
  forallb (fun c => negb (N.eqb c 38)) t = true ->
  href_safe t = true.
Proof.
  unfold href_safe. induction t as [|c t IH]; [reflexivity|].
  cbn [forallb]. intros H A.
  apply andb_true_iff in H as [Hc Ht]. apply andb_true_iff in A as [Ac At].
  rewrite (IH Ht At), andb_true_r.
  unfold plain in Hc. apply negb_true_iff in Hc. apply negb_true_iff in Ac.
  apply orb_false_iff in Hc as [Hc L]. apply orb_false_iff in Hc as [Hc _].
  apply orb_false_iff in Hc as [H34 _].
  apply N.ltb_ge in L. unfold dquote. rewrite H34, Ac.
  destruct (N.eqb_spec c 13) as [->|_]; [lia|].
  destruct (N.eqb_spec c 0) as [->|_]; [lia|]. reflexivity.
Qed.

Lemma sourceLinks_decoded (s : jsstring) (first : JSON.value)
      (rest : list JSON.value) :
  s <> [] ->
  JSON.parse (replace_g apostrophe [dquote] s)
  = Normal (JSON.Arr (first :: rest)) ->
  sourceLinks (Some (SourcesStr s)) = option_map anchor (String_of first).
Proof.
  intros Hs E. destruct s as [|c s]; [now elim Hs|].
  unfold sourceLinks, decoded. now rewrite E.
Qed.

Lemma sourceLinks_not_json (s : jsstring) (e : exn) :
  s <> [] ->
  JSON.parse (replace_g apostrophe [dquote] s) = Throw e ->
  sourceLinks (Some (SourcesStr s)) = Some (anchor s).
Proof.
  intros Hs E. destruct s as [|c s]; [now elim Hs|].
  unfold sourceLinks, decoded. now rewrite E.
Qed.

Lemma createCourseCard_modelled (course : Recommendation) (index : Z) :
  card_modelled course = true ->
  exists card markup,
    createCourseCard course index = Normal card
    /\ sourceLinks (sources course) = Some markup
    /\ card_link card = Some markup.
Proof.
  unfold card_modelled, rating_in_range. intros H.
  apply andb_true_iff in H as [R L]. apply andb_true_iff in R as [R _].
  destruct (createCourseCard_ok course index R) as [card [E _]].
  destruct (sourceLinks (sources course)) as [markup|] eqn:S; [|discriminate].
  exists card, markup. split; [exact E|]. split; [reflexivity|].
  now rewrite (createCourseCard_link _ _ _ E).
Qed.

End Link.




(** Sources that decode to something else than a non-empty list give no
    link: an empty list, a number, an object. *)
Example sources_without_entry :
  sourceLinks (Some (SourcesSeq [])) = Some []
  /\ sourceLinks (Some (SourcesStr (lit "[]"))) = Some []
  /\ sourceLinks (Some (SourcesStr (lit "42"))) = Some []
  /\ sourceLinks (Some (SourcesStr (lit "{'a': 1}"))) = Some [].
Proof. repeat split. Qed.


(** * Further properties of the script *)

(** ** What the handler leaves alone *)

Create HintDb spares.

Section Spares.

Variable i : ElemId.

Lemma spares_ret {A} (a : A) : spares i (ret a).
Proof. intros p. reflexivity. Qed.

Lemma spares_throw {A} (e : exn) : spares i (@throw A e).
Proof. intros p. reflexivity. Qed.

Lemma spares_lift {A} (o : outcome A) : spares i (lift o).
Proof. intros p. reflexivity. Qed.

Lemma spares_prop {A} (o : option A) : spares i (prop o).
Proof. destruct o; intros p; reflexivity. Qed.

Lemma spares_bind {A B} (m : M A) (k : A -> M B) :
  spares i m -> (forall a, spares i (k a)) -> spares i (bind m k).
Proof.
  intros Hm Hk p. rewrite bind_run. specialize (Hm p).
  destruct (m p) as [[a|e] q]; simpl in *.
  - now rewrite Hk.
  - exact Hm.
Qed.

Lemma spares_try_catch {A} (m : M A) (h : exn -> M A) :
  spares i m -> (forall e, spares i (h e)) -> spares i (try_catch m h).
Proof.
  intros Hm Hh p. unfold try_catch. specialize (Hm p).
  destruct (m p) as [[a|e] q]; simpl in *.
  - exact Hm.
  - now rewrite Hh.
Qed.

Lemma spares_set_display j v : ElemId_eqb i j = false -> spares i (set_display j v).
Proof. intros H p. simpl. now rewrite H. Qed.

Lemma spares_set_text j v : ElemId_eqb i j = false -> spares i (set_text j v).
Proof. intros H p. simpl. now rewrite H. Qed.

Lemma spares_set_children j l :
  ElemId_eqb i j = false -> spares i (set_children j l).
Proof. intros H p. simpl. now rewrite H. Qed.

Lemma spares_appendChild j n : ElemId_eqb i j = false -> spares i (appendChild j n).
Proof. intros H p. simpl. now rewrite H. Qed.

Lemma spares_scroll s : spares i (scroll s).
Proof. intros p. reflexivity. Qed.

Lemma spares_fetch formData : spares i (fetch formData).
Proof. intros p. reflexivity. Qed.

Lemma spares_forEach {A} (l : list A) (body : A -> Z -> M unit) :
  (forall x n, spares i (body x n)) -> spares i (forEach l body).
Proof.
  intros Hb. unfold forEach. generalize 0.
  induction l as [|x l IH]; intros index; simpl.
  - apply spares_ret.
  - apply spares_bind; [apply Hb | intros _; apply IH].
Qed.

End Spares.

#[local] Hint Resolve spares_ret spares_throw spares_lift spares_prop
  spares_scroll spares_fetch : spares.

Ltac spares_steps :=
  repeat first
    [ apply spares_forEach; intros ? ?
    | apply spares_try_catch; [|intros ?]
    | apply spares_bind; [|intros ?]
    | solve [auto with spares]
    | apply spares_set_display; reflexivity
    | apply spares_set_text; reflexivity
    | apply spares_set_children; reflexivity
    | apply spares_appendChild; reflexivity ].

Lemma spares_showError (i : ElemId) (message : jsstring) :
  outside_handler i = true -> spares i (showError message).
Proof. destruct i; try discriminate; intros _; unfold showError; spares_steps. Qed.

Lemma spares_displayResults (i : ElemId) (data : UploadResponse) :
  outside_handler i = true -> spares i (displayResults data).
Proof.
  destruct i; try discriminate; intros _;
    unfold displayResults, displayAnalysis, displayRecommendations,
      domains_block, skills_block;
    spares_steps;
    try (destruct (domains _) as [[|? ?]|]; spares_steps);
    try (destruct (skills _) as [[|? ?]|]; spares_steps;
         destruct (_ >? 10); spares_steps);
    try (match goal with |- spares _ (match ?x with _ => _ end) =>
           destruct x end; spares_steps).
Qed.

Lemma spares_upload (i : ElemId) (file : File) (net : FetchOutcome) :
  outside_handler i = true -> spares i (upload file net).
Proof.
  intros H. unfold upload.
  apply spares_bind.
  { destruct i; try discriminate; unfold showLoading; spares_steps. }
  intros _. apply spares_try_catch; [|intros _; now apply spares_showError].
  apply spares_bind; [apply spares_fetch|]. intros _.
  destruct net as [|ok [data|]]; try apply spares_throw.
  apply spares_bind; [apply spares_ret|]. intros d.
  destruct (ok && truthy (success d))%bool;
    [now apply spares_displayResults | now apply spares_showError].
Qed.

Lemma spares_onSubmit (i : ElemId) (net : FetchOutcome) :
  outside_handler i = true -> spares i (onSubmit net).
Proof.
  intros H p. unfold onSubmit. destruct (validate (files p)).
  - now apply spares_upload.
  - now apply spares_showError.
Qed.

(** The handler keeps the selection of files. *)
Lemma onSubmit_files (net : FetchOutcome) (p : Page) :
  files (snd (onSubmit net p)) = files p.
Proof.
  unfold onSubmit. destruct (validate (files p)) as [file|message];
    [|apply showError_run].
  rewrite upload_eq.
  assert (S : files (sent file p) = files p) by reflexivity.
  destruct net as [|ok [data|]]; try reflexivity.
  destruct (ok && truthy (success data))%bool; [|reflexivity].
  destruct (displayResults_run (sent file p) data)
    as (q & (_ & _ & F) & [E|[e E]]); rewrite E; simpl; now rewrite F.
Qed.

(** ** The outcome of a submission *)

Lemma truthy_true (b : option bool) : truthy b = true -> b = Some true.
Proof. destruct b as [[|]|]; simpl; congruence. Qed.

(** The handler after the validation: it completes, and shows the results
    only for a successful status with a true success flag. *)
Lemma upload_end (file : File) (net : FetchOutcome) (p : Page) :
  fst (upload file net p) = Normal tt
  /\ (shown (snd (upload file net p)) = [Error]
      \/ (shown (snd (upload file net p)) = [Results]
          /\ exists data, net = Responds true (Some data)
                          /\ success data = Some true)).
Proof.
  rewrite upload_eq. destruct net as [|ok [data|]]; try (split; [|left]; reflexivity).
  destruct (ok && truthy (success data))%bool eqn:C;
    [|split; [|left]; reflexivity].
  apply andb_true_iff in C as [-> T]. apply truthy_true in T.
  destruct (displayResults_run (sent file p) data) as (q & _ & [E|[e E]]).
  - pose proof (displayResults_shown (sent file p) data _ E) as (S & _).
    rewrite E. split; [reflexivity|]. right. split; [exact S|]. now exists data.
  - rewrite E. split; [|left]; reflexivity.
Qed.

Lemma validate_accepts_first (fs : option (list File)) (file : File) :
  validate fs = Accept file -> exists rest, fs = Some (file :: rest).
Proof.
  destruct fs as [[|f rest]|]; try discriminate. unfold validate.
  destruct (_ >? _); [discriminate|]. destruct (negb _); [discriminate|].
  intros H. injection H as ->. now exists rest.
Qed.

Lemma onSubmit_accepted (net : FetchOutcome) (p : Page) (file : File) :
  validate (files p) = Accept file ->
  fetched (snd (onSubmit net p)) = request_for file :: fetched p.
Proof. intros V. unfold onSubmit. rewrite V. apply upload_fetched. Qed.

(** X1.  Whatever the page and whatever the request gives, the submit
    handler completes without an exception and leaves exactly one state
    visible, the Error state or the Results state: never the Loading state,
    never the upload form. *)
Theorem submit_ends_in_error_or_results (net : FetchOutcome) (p : Page) :
  fst (onSubmit net p) = Normal tt
  /\ (shown (snd (onSubmit net p)) = [Error]
      \/ shown (snd (onSubmit net p)) = [Results]).
Proof.
  unfold onSubmit. destruct (validate (files p)) as [file|message].
  - destruct (upload_end file net p) as (C & [E|[R _]]); auto.
  - split; [|left]; apply showError_run.
Qed.

(** X2.  The results are shown at the end of a submission only if the
    selected file passed the validation, the response had a successful
    status and its payload a true success flag. *)
Theorem results_only_on_success (net : FetchOutcome) (p : Page) :
  shown (snd (onSubmit net p)) = [Results] ->
  exists file data,
    validate (files p) = Accept file
    /\ net = Responds true (Some data)
    /\ success data = Some true.
Proof.
  unfold onSubmit. destruct (validate (files p)) as [file|message] eqn:V.
  - intros H. destruct (upload_end file net p) as (_ & [E|(_ & data & N & S)]).
    + rewrite E in H. discriminate H.
    + now exists file, data.
  - intros H. discriminate H.
Qed.

Lemma results_only_on_success_witness :
  exists file data,
    validate (Some [pdf_file]) = Accept file
    /\ Responds true (Some sample_data) = Responds true (Some data)
    /\ success data = Some true.
Proof.
  apply (results_only_on_success (Responds true (Some sample_data))
           (select [pdf_file] initial_page)).
  vm_compute. reflexivity.
Defined.

(** X3.  The submit handler never writes the form, the file input, the
    displayed file name or the upload button, and it keeps the selection of
    files: after a failed upload the same file is still selected. *)
Theorem submit_spares_the_form (net : FetchOutcome) (p : Page) (i : ElemId) :
  outside_handler i = true ->
  elem (snd (onSubmit net p)) i = elem p i
  /\ files (snd (onSubmit net p)) = files p.
Proof.
  intros H. split; [now apply spares_onSubmit | apply onSubmit_files].
Qed.

Lemma submit_spares_the_form_witness :
  elem (snd (onSubmit FetchRejects (select [pdf_file] initial_page))) fileName
  = elem (select [pdf_file] initial_page) fileName
  /\ files (snd (onSubmit FetchRejects (select [pdf_file] initial_page)))
     = Some [pdf_file].
Proof.
  apply (submit_spares_the_form FetchRejects (select [pdf_file] initial_page)
           fileName eq_refl).
Defined.

(** X4.  Nothing guards a second submission: submitting again, from the
    Error or the Results state, sends the same file in a second request. *)
Theorem second_submit_sends_again
    (net1 net2 : FetchOutcome) (p : Page) (file : File) :
  validate (files p) = Accept file ->
  fetched (snd (onSubmit net2 (snd (onSubmit net1 p))))
  = request_for file :: request_for file :: fetched p.
Proof.
  intros V.
  rewrite (onSubmit_accepted net2 (snd (onSubmit net1 p)) file)
    by now rewrite onSubmit_files.
  now rewrite (onSubmit_accepted net1 p file V).
Qed.

Lemma second_submit_sends_again_witness :
  fetched (snd (onSubmit (Responds true (Some sample_data))
                  (snd (onSubmit FetchRejects (select [pdf_file] initial_page)))))
  = [request_for pdf_file; request_for pdf_file].
Proof.
  apply (second_submit_sends_again FetchRejects (Responds true (Some sample_data))
           (select [pdf_file] initial_page) pdf_file).
  reflexivity.
Defined.

(** X5.  After [resetForm] a submission is refused with "Please select a
    file to upload" and sends no request, whatever was selected before and
    whatever the page showed. *)
Theorem submit_after_reset (net : FetchOutcome) (p : Page) :
  shown (snd (onSubmit net (snd (resetForm p)))) = [Error]
  /\ message_of (snd (onSubmit net (snd (resetForm p))))
     = lit "Please select a file to upload"
  /\ fetched (snd (onSubmit net (snd (resetForm p)))) = fetched p.
Proof.
  assert (V : validate (files (snd (resetForm p)))
              = Reject (lit "Please select a file to upload")).
  { change (files (snd (resetForm p)))
      with (match files p with
            | Some _ => Some (@nil File)
            | None => None
            end).
    destruct (files p); reflexivity. }
  unfold onSubmit. rewrite V.
  destruct (showError_run (snd (resetForm p))
              (lit "Please select a file to upload")) as (_ & S & M & F & _).
  repeat split; assumption.
Qed.

(** X6.  The name that the change handler displays is the name of the file
    that a following submission validates and sends: both read the first
    file of the selection, and the handler leaves the display alone. *)
Theorem displayed_name_is_sent_file (net : FetchOutcome) (p : Page) (file : File) :
  validate (files p) = Accept file ->
  text (elem (snd (onSubmit net (snd (onChange p)))) fileName) = file_name file
  /\ hd_error (fetched (snd (onSubmit net (snd (onChange p)))))
     = Some (request_for file).
Proof.
  intros V. destruct (validate_accepts_first _ _ V) as (rest & F).
  assert (C : onChange p = set_text fileName (file_name file) p)
    by (unfold onChange; now rewrite F).
  assert (F' : files (snd (onChange p)) = files p) by now rewrite C.
  split.
  - rewrite (spares_onSubmit fileName net eq_refl). rewrite C. reflexivity.
  - rewrite (onSubmit_accepted net (snd (onChange p)) file) by now rewrite F'.
    reflexivity.
Qed.

Lemma displayed_name_is_sent_file_witness :
  text (elem (snd (onSubmit FetchRejects
                     (snd (onChange (select [pdf_file] initial_page))))) fileName)
  = lit "cv.pdf".
Proof.
  apply (displayed_name_is_sent_file FetchRejects
           (select [pdf_file] initial_page) pdf_file eq_refl).
Defined.

(** ** What the renderer writes *)

Section Rendering.

(** [displayAnalysis] on an analysis: the four regions that it writes, and
    nothing else. *)
Lemma displayAnalysis_run (a : AnalysisResult) (p : Page) :
  exists p',
    displayAnalysis (Some a) p = (Normal tt, p')
    /\ text (elem p' experienceLevel) = experience_level a
    /\ text (elem p' skillCount) = toString (skill_count a)
    /\ children (elem p' domainsList) = domain_nodes (domains a)
    /\ children (elem p' skillsList) = skill_nodes (skills a)
    /\ (forall j, ElemId_eqb j experienceLevel = false ->
                  ElemId_eqb j skillCount = false ->
                  ElemId_eqb j domainsList = false ->
                  ElemId_eqb j skillsList = false ->
                  elem p' j = elem p j).
Proof.
  pose (q1 := snd ((set_text experienceLevel (experience_level a) ;;
                    set_text skillCount (toString (skill_count a)) ;;
                    set_children domainsList []) p)).
  destruct (domains_block_run (domains a) q1 eq_refl) as (p2 & E2 & C2 & O2).
  pose (q3 := snd (set_children skillsList [] p2)).
  destruct (skills_block_run (skills a) q3 eq_refl) as (p4 & E4 & C4 & O4).
  exists p4. split; [|split; [|split; [|split; [|split]]]].
  - change (displayAnalysis (Some a) p)
      with ((domains_block (domains a) ;;
             set_children skillsList [] ;;
             skills_block (skills a)) q1).
    rewrite bind_run, E2. exact E4.
  - rewrite (O4 experienceLevel) by discriminate. simpl.
    rewrite (O2 experienceLevel) by discriminate. reflexivity.
  - rewrite (O4 skillCount) by discriminate. simpl.
    rewrite (O2 skillCount) by discriminate. reflexivity.
  - rewrite (O4 domainsList) by discriminate. exact C2.
  - exact C4.
  - intros j H1 H2 H3 H4.
    assert (N4 : j <> skillsList) by (intros ->; discriminate H4).
    assert (N3 : j <> domainsList) by (intros ->; discriminate H3).
    rewrite (O4 j N4). simpl. rewrite H4. rewrite (O2 j N3). simpl.
    now rewrite H3, H2, H1.
Qed.

Lemma createCourseCard_index (course : Recommendation) (n m : Z) :
  createCourseCard course n = createCourseCard course m.
Proof. reflexivity. Qed.

(** The loop over the courses, when it completes: one card per course, in
    the order of the courses, after what the list held. *)
Lemma cards_loop (rs : list Recommendation) :
  forall index p q,
    forEach_from index rs
      (fun course index =>
         courseCard <- lift (createCourseCard course index) ;;
         appendChild recommendationsList (CourseCard courseCard)) p
    = (Normal tt, q) ->
    exists cards,
      children (elem q recommendationsList)
      = children (elem p recommendationsList) ++ map CourseCard cards
      /\ Forall2 card_of rs cards
      /\ forall j, j <> recommendationsList -> elem q j = elem p j.
Proof.
  induction rs as [|c rs IH]; intros index p q H.
  - injection H as <-. exists []. rewrite app_nil_r. now repeat split.
  - cbn [forEach_from] in H. rewrite !bind_run in H. unfold lift in H.
    destruct (createCourseCard c index) as [card|e] eqn:E; [|discriminate H].
    cbv beta iota in H.
    destruct (IH _ _ _ H) as (cards & C & F & O).
    exists (card :: cards). split; [|split].
    + rewrite C. simpl. rewrite <- app_assoc. reflexivity.
    + constructor; [|exact F]. intros n.
      now rewrite (createCourseCard_index c n index).
    + intros j Hj. rewrite (O j Hj). simpl.
      now rewrite (ElemId_eqb_neq _ _ Hj).
Qed.

(** [displayRecommendations] on a list of courses, when it completes. *)
Lemma displayRecommendations_run (rs : list Recommendation) (p q : Page) :
  displayRecommendations (Some rs) p = (Normal tt, q) ->
  text (elem q recCount) = toString (Z.of_nat (List.length rs))
  /\ (exists cards,
        Forall2 card_of rs cards
        /\ children (elem q recommendationsList)
           = match rs with
             | [] => [no_recommendations]
             | _ :: _ => map CourseCard cards
             end)
  /\ (forall j, ElemId_eqb j recCount = false ->
                ElemId_eqb j recommendationsList = false ->
                elem q j = elem p j).
Proof.
  pose (q1 := snd ((set_text recCount (toString (Z.of_nat (List.length rs))) ;;
                    set_children recommendationsList []) p)).
  destruct rs as [|c rs].
  - intros H. injection H as <-. split; [reflexivity|]. split.
    + exists []. split; [constructor | reflexivity].
    + intros j H1 H2. simpl. now rewrite H2, H1.
  - intros H.
    change (displayRecommendations (Some (c :: rs)) p)
      with (forEach_from 0 (c :: rs)
              (fun course index =>
                 courseCard <- lift (createCourseCard course index) ;;
                 appendChild recommendationsList (CourseCard courseCard)) q1) in H.
    destruct (cards_loop _ _ _ _ H) as (cards & C & F & O).
    split; [|split].
    + rewrite (O recCount) by discriminate. reflexivity.
    + exists cards. split; [exact F | exact C].
    + intros j H1 H2.
      assert (N : j <> recommendationsList) by (intros ->; discriminate H2).
      rewrite (O j N). simpl. now rewrite H2, H1.
Qed.

Lemma card_of_functional (rs : list Recommendation) (l l' : list Card) :
  Forall2 card_of rs l -> Forall2 card_of rs l' -> l = l'.
Proof.
  intros H. revert l'. induction H as [|c card rs l Hc _ IH]; intros l' H'.
  - now inversion H'.
  - inversion H' as [|c' card' rs' l'' Hc' F']; subst.
    f_equal; [|now apply IH].
    specialize (Hc 0). specialize (Hc' 0). congruence.
Qed.

(** [displayResults], when it completes: the payload has an analysis and
    recommendations, and the six regions hold what they give. *)
Lemma displayResults_rendered (data : UploadResponse) (p q : Page) :
  displayResults data p = (Normal tt, q) ->
  exists a rs cards,
    analysis data = Some a
    /\ recommendations data = Some rs
    /\ Forall2 card_of rs cards
    /\ rendered q
       = (experience_level a, toString (skill_count a),
          domain_nodes (domains a), skill_nodes (skills a),
          toString (Z.of_nat (List.length rs)),
          match rs with
          | [] => [no_recommendations]
          | _ :: _ => map CourseCard cards
          end).
Proof.
  rewrite displayResults_eq, bind_run.
  destruct (analysis data) as [a|]; [|discriminate].
  destruct (displayAnalysis_run a (hidden p)) as (p1 & E1 & T1 & T2 & D & S & O1).
  rewrite E1, bind_run.
  destruct (recommendations data) as [rs|]; [|discriminate].
  destruct (displayRecommendations (Some rs) p1) as [[[]|e] p2] eqn:E2;
    [|discriminate].
  intros H. injection H as <-.
  destruct (displayRecommendations_run rs p1 p2 E2) as (T3 & (cards & F & C) & O2).
  exists a, rs, cards. repeat split; try assumption.
  unfold rendered. simpl.
  rewrite T3, C, !O2 by reflexivity. now rewrite T1, T2, D, S.
Qed.

End Rendering.

(** ** The routing of the answer, with what is rendered *)

(** C4, as the code has it.  When the request throws or the body is not
    JSON, the Error state shows "Failed to connect to server. Please try
    again.".  When the body is JSON: with a successful status and a true
    success flag, if the payload carries an analysis and recommendations
    with ratings in range, the results are rendered (the level and the
    skill count of the analysis, its skill tags, one tag per domain, the
    number of recommendations and one card per recommendation, in order)
    and the Results state is shown; and the Error state shows the same
    "Failed to connect" message if rendering the payload raises an
    exception (analysis or recommendations missing, negative rating);
    otherwise the Error state shows the error string of the payload, or the
    generic message when that string is absent or empty.  The texts of the
    domain tags are stated for domains of ASCII characters. *)
Theorem upload_routing (file : File) (net : FetchOutcome) (p : Page) :
  let p' := snd (upload file net p) in
  ((net = FetchRejects \/ exists ok, net = Responds ok None) ->
   shown p' = [Error]
   /\ message_of p' = lit "Failed to connect to server. Please try again.")
  /\ (forall ok data, net = Responds ok (Some data) ->
      (ok = true -> success data = Some true -> well_formed data = true ->
       shown p' = [Results]
       /\ exists a rs cards,
            analysis data = Some a
            /\ recommendations data = Some rs
            /\ Forall2 card_of rs cards
            /\ text (elem p' experienceLevel) = experience_level a
            /\ text (elem p' skillCount) = toString (skill_count a)
            /\ children (elem p' skillsList) = skill_nodes (skills a)
            /\ List.length (children (elem p' domainsList))
               = Nat.max 1 (List.length (domains_of a))
            /\ (forallb ascii_only (domains_of a) = true ->
                children (elem p' domainsList) = domain_nodes (domains a))
            /\ text (elem p' recCount) = toString (Z.of_nat (List.length rs))
            /\ children (elem p' recommendationsList)
               = match rs with
                 | [] => [no_recommendations]
                 | _ :: _ => map CourseCard cards
                 end)
      /\ (ok = true -> success data = Some true -> broken data = true ->
          shown p' = [Error]
          /\ message_of p' = lit "Failed to connect to server. Please try again.")
      /\ (ok = false \/ success data <> Some true ->
          shown p' = [Error]
          /\ (forall s, error data = Some s -> s <> [] -> message_of p' = s)
          /\ (error data = None \/ error data = Some [] ->
              message_of p' = lit "An error occurred while processing your resume"))).
Proof.
  intros p'. subst p'. rewrite upload_eq. split.
  - intros [-> | (ok & ->)]; split; reflexivity.
  - intros ok data ->. split; [|split].
    + intros -> S W. rewrite S. simpl andb. cbv iota.
      destruct (displayResults_completes data (sent file p)
                  (well_formed_not_broken data W)) as (q & E).
      rewrite E. simpl snd.
      split; [now apply (displayResults_shown (sent file p) data q)|].
      destruct (displayResults_rendered data (sent file p) q E)
        as (a & rs & cards & A & R & F & X).
      unfold rendered in X. injection X as T1 T2 D K T3 C.
      exists a, rs, cards. repeat split; try assumption.
      * rewrite D. unfold domains_of, domain_nodes.
        destruct (domains a) as [[|d l]|]; [reflexivity | | reflexivity].
        rewrite length_map. reflexivity.
      * intros _. exact D.
    + intros -> S B. rewrite S. simpl andb. cbv iota.
      destruct (displayResults_throws data (sent file p) B) as (e & q & E).
      rewrite E. split; reflexivity.
    + intros N. rewrite (not_success ok data N). split; [reflexivity|]. split.
      * intros s -> Hs. destruct s; [now elim Hs | reflexivity].
      * intros [-> | ->]; reflexivity.
Qed.

Lemma upload_routing_witness :
  (shown (snd (upload pdf_file (Responds true (Some sample_data)) initial_page))
   = [Results]
   /\ text (elem (snd (upload pdf_file (Responds true (Some sample_data))
                         initial_page)) experienceLevel)
      = experience_level sample_analysis
   /\ children (elem (snd (upload pdf_file (Responds true (Some sample_data))
                             initial_page)) domainsList)
      = domain_nodes (domains sample_analysis))
  /\ message_of (snd (upload pdf_file (Responds false (Some (refusal (Some (lit "No text found")))))
                        initial_page))
     = lit "No text found".
Proof.
  split.
  - destruct (proj1 (proj2 (upload_routing pdf_file
                             (Responds true (Some sample_data)) initial_page)
                     true sample_data eq_refl) eq_refl eq_refl eq_refl)
      as (V & a & rs & cards & A & _ & _ & T1 & _ & _ & _ & D & _).
    injection A as <-. split; [exact V|]. split; [exact T1|].
    apply D. reflexivity.
  - apply (proj2 (proj2 (proj2 (upload_routing pdf_file
             (Responds false (Some (refusal (Some (lit "No text found")))))
             initial_page) false _ eq_refl)) (or_introl eq_refl)).
    + reflexivity.
    + discriminate.
Defined.

(** X7.  [displayAnalysis] writes the experience level as it is received
    and the skill count as the script prints a number, which is the count
    in decimal when it is below [2^53]; and it writes nothing but its four
    regions: the recommendations, the error message and the containers are
    as before. *)
Theorem analysis_texts (a : AnalysisResult) (p : Page) :
  fst (displayAnalysis (Some a) p) = Normal tt
  /\ text (elem (snd (displayAnalysis (Some a) p)) experienceLevel)
     = experience_level a
  /\ text (elem (snd (displayAnalysis (Some a) p)) skillCount)
     = toString (skill_count a)
  /\ (0 <= skill_count a < two53 ->
      decimal_value (text (elem (snd (displayAnalysis (Some a) p)) skillCount))
      = Z.to_N (skill_count a))
  /\ (forall j, ElemId_eqb j experienceLevel = false ->
                ElemId_eqb j skillCount = false ->
                ElemId_eqb j domainsList = false ->
                ElemId_eqb j skillsList = false ->
                elem (snd (displayAnalysis (Some a) p)) j = elem p j).
Proof.
  destruct (displayAnalysis_run a p) as (p' & E & T1 & T2 & _ & _ & O).
  rewrite E. simpl fst. simpl snd. repeat split; try assumption.
  intros H. rewrite T2, toString_safe by exact H.
  apply decimal_value_digits.
Qed.

Lemma analysis_texts_witness :
  decimal_value
    (text (elem (snd (displayAnalysis (Some sample_analysis) initial_page))
             skillCount))
  = 2%N.
Proof.
  apply (proj1 (proj2 (proj2 (proj2 (analysis_texts sample_analysis initial_page))))).
  unfold two53. simpl. lia.
Defined.

(** X8.  [displayAnalysis] renders one tag per domain.  For domains of
    ASCII characters the tags are, in the order of the domains, the domains
    with their first underscore turned into a space and their letters in
    upper case; for such a domain with at most one underscore that is the
    domain with every underscore replaced.  An empty or absent list gives
    the single tag "General". *)
Theorem domains_rendered (a : AnalysisResult) (p : Page) :
  let tags := children (elem (snd (displayAnalysis (Some a) p)) domainsList) in
  (forall ds, domains a = Some ds -> ds <> [] ->
     List.length tags = List.length ds
     /\ (forallb ascii_only ds = true ->
         tags = map (fun d => Tag (lit "domain-tag")
                                  (toUpperCase (replace underscore [space] d)) [])
                    ds))
  /\ (forall ds d, domains a = Some ds -> In d ds -> ascii_only d = true ->
        (count_occ N.eq_dec d underscore <= 1)%nat ->
        In (Tag (lit "domain-tag") (domain_text_spec d) []) tags)
  /\ (domains a = None \/ domains a = Some [] ->
      tags = [Tag (lit "domain-tag") (lit "General") []]).
Proof.
  intros tags. subst tags.
  destruct (displayAnalysis_run a p) as (p' & E & _ & _ & D & _).
  rewrite E. simpl snd. rewrite D. split; [|split].
  - intros ds -> Hne. destruct ds as [|d ds]; [now elim Hne|].
    split; [apply length_map | reflexivity].
  - intros ds d -> Hd _ Hc. destruct ds as [|d0 ds]; [destruct Hd|].
    unfold domain_nodes. apply in_map_iff. exists d. split; [|exact Hd].
    unfold domain_tag, domain_text_spec. now rewrite replace_once_enough.
  - intros [-> | ->]; reflexivity.
Qed.

Lemma domains_rendered_witness :
  children (elem (snd (displayAnalysis (Some sample_analysis) initial_page))
              domainsList)
  = [Tag (lit "domain-tag") (lit "MACHINE LEARNING_OPS") []].
Proof.
  destruct (proj1 (domains_rendered sample_analysis initial_page)
              [lit "machine_learning_ops"] eq_refl) as [_ H];
    [discriminate|].
  apply H. reflexivity.
Defined.

Lemma card_modelled_rating (rs : list Recommendation) :
  forallb card_modelled rs = true ->
  forallb (fun c => Qle_bool 0 (rating_or_zero (rating c))) rs = true.
Proof.
  intros H. rewrite forallb_forall in *. intros c Hc. specialize (H c Hc).
  unfold card_modelled, rating_in_range in H.
  apply andb_true_iff in H as [H _]. now apply andb_true_iff in H as [H _].
Qed.

(** X9.  On a list of courses that is not empty and of which the model has
    the cards (ratings in range), [displayRecommendations] completes, the
    count shown is the length of the list, and the region holds exactly one
    card per course, in the order of the courses. *)
Theorem recommendation_cards (rs : list Recommendation) (p : Page) :
  rs <> [] ->
  forallb card_modelled rs = true ->
  exists q cards,
    displayRecommendations (Some rs) p = (Normal tt, q)
    /\ text (elem q recCount) = toString (Z.of_nat (List.length rs))
    /\ children (elem q recommendationsList) = map CourseCard cards
    /\ List.length cards = List.length rs
    /\ Forall2 (fun course card =>
                  forall index, createCourseCard course index = Normal card)
               rs cards.
Proof.
  intros Hne M.
  pose proof (displayRecommendations_completes rs p (card_modelled_rating rs M)) as E.
  destruct (displayRecommendations (Some rs) p) as [o q] eqn:R.
  cbn [fst] in E. subst o.
  destruct (displayRecommendations_run rs p q R) as (T & (cards & F & C) & _).
  exists q, cards. split; [reflexivity|]. split; [exact T|].
  destruct rs as [|c rs]; [now elim Hne|]. split; [exact C|]. split.
  - symmetry. exact (Forall2_length F).
  - exact F.
Qed.

Lemma recommendation_cards_witness :
  exists q cards,
    displayRecommendations (Some [sample_course; sample_course]) initial_page
    = (Normal tt, q)
    /\ text (elem q recCount) = lit "2"
    /\ children (elem q recommendationsList) = map CourseCard cards
    /\ List.length cards = 2%nat.
Proof.
  destruct (recommendation_cards [sample_course; sample_course] initial_page)
    as (q & cards & R & T & C & L & _); [discriminate | reflexivity |].
  exists q, cards. repeat split; assumption.
Defined.

(** X10.  A successful answer whose list of recommendations is empty shows
    the Results state with the count 0 and, in place of the cards, the
    single message "No recommendations found. Try uploading a more detailed
    resume.". *)
Theorem empty_recommendations
    (file : File) (data : UploadResponse) (a : AnalysisResult) (p : Page) :
  success data = Some true ->
  analysis data = Some a ->
  recommendations data = Some [] ->
  shown (snd (upload file (Responds true (Some data)) p)) = [Results]
  /\ text (elem (snd (upload file (Responds true (Some data)) p)) recCount)
     = lit "0"
  /\ children (elem (snd (upload file (Responds true (Some data)) p))
                 recommendationsList)
     = [Paragraph (lit "text-align: center; color: #666;")
          (lit "No recommendations found. Try uploading a more detailed resume.")].
Proof.
  intros S A R. rewrite upload_eq, S. simpl andb. cbv iota.
  assert (B : broken data = false) by (unfold broken; now rewrite A, R).
  destruct (displayResults_completes data (sent file p) B) as (q & E).
  rewrite E. simpl snd.
  destruct (displayResults_shown (sent file p) data q E) as (V & _).
  destruct (displayResults_rendered data (sent file p) q E)
    as (a' & rs & cards & A' & R' & _ & X).
  rewrite R in R'. injection R' as <-.
  unfold rendered in X. injection X as _ _ _ _ T C.
  now repeat split.
Qed.

Lemma empty_recommendations_witness :
  shown (snd (upload pdf_file (Responds true (Some data_no_course)) initial_page))
  = [Results].
Proof.
  apply (empty_recommendations pdf_file data_no_course sample_analysis
           initial_page eq_refl eq_refl eq_refl).
Defined.

(** X11.  What the renderer writes depends on the payload only: rendering
    the same payload on two pages, whatever tags and cards of an earlier
    answer they hold, gives the same texts, tags and cards. *)
Theorem render_replaces_previous (data : UploadResponse) (p p' q q' : Page) :
  displayResults data p = (Normal tt, q) ->
  displayResults data p' = (Normal tt, q') ->
  rendered q = rendered q'.
Proof.
  intros H H'.
  destruct (displayResults_rendered data p q H) as (a & rs & cards & A & R & F & X).
  destruct (displayResults_rendered data p' q' H')
    as (a' & rs' & cards' & A' & R' & F' & X').
  rewrite A in A'. injection A' as <-. rewrite R in R'. injection R' as <-.
  rewrite X, X'. now rewrite (card_of_functional rs cards cards' F F').
Qed.

Lemma render_replaces_previous_witness :
  rendered (snd (displayResults sample_data initial_page))
  = rendered (snd (displayResults sample_data
                     (snd (displayResults sample_data initial_page)))).
Proof.
  assert (E : fst (displayResults sample_data initial_page) = Normal tt)
    by (vm_compute; reflexivity).
  destruct (displayResults sample_data initial_page) as [o q] eqn:R.
  change (o = Normal tt) in E. subst o.
  change (snd (Normal tt, q)) with q.
  destruct (displayResults_completes sample_data q eq_refl) as (q' & R').
  rewrite R'. change (snd (Normal tt, q')) with q'.
  exact (render_replaces_previous sample_data initial_page q q q' R R').
Defined.

(** X12.  A successful answer with an analysis but without recommendations
    ends in the Error state with the message of a failed connection, and
    the analysis has been written by then: the exception comes after
    [displayAnalysis]. *)
Theorem analysis_written_before_failure
    (file : File) (data : UploadResponse) (a : AnalysisResult) (p : Page) :
  success data = Some true ->
  analysis data = Some a ->
  recommendations data = None ->
  shown (snd (upload file (Responds true (Some data)) p)) = [Error]
  /\ message_of (snd (upload file (Responds true (Some data)) p))
     = lit "Failed to connect to server. Please try again."
  /\ text (elem (snd (upload file (Responds true (Some data)) p)) experienceLevel)
     = experience_level a
  /\ children (elem (snd (upload file (Responds true (Some data)) p)) skillsList)
     = skill_nodes (skills a).
Proof.
  intros S A R. rewrite upload_eq, S. simpl andb. cbv iota.
  rewrite displayResults_eq, bind_run, A.
  destruct (displayAnalysis_run a (hidden (sent file p)))
    as (p1 & E1 & T1 & _ & _ & K & _).
  rewrite E1, bind_run, R.
  change (displayRecommendations None p1) with (@Throw unit TypeError, p1).
  cbv iota beta. repeat split; assumption.
Qed.

Lemma analysis_written_before_failure_witness :
  text (elem (snd (upload pdf_file (Responds true (Some data_no_recommendations))
                     initial_page)) experienceLevel)
  = lit "Mid-Level".
Proof.
  apply (analysis_written_before_failure pdf_file data_no_recommendations
           sample_analysis initial_page eq_refl eq_refl eq_refl).
Defined.

(** ** Stars and printed ratings *)

Lemma half_up (n d : Z) :
  0 < d -> 0 <= n ->
  (2 * n + d) / (2 * d) = n / d + (if d <=? 2 * (n mod d) then 1 else 0).
Proof.
  intros Hd Hn. pose proof (Z.div_mod n d ltac:(lia)) as E.
  pose proof (Z.mod_pos_bound n d Hd) as B.
  remember (n / d) as q eqn:Eq. remember (n mod d) as m eqn:Em.
  destruct (Z.leb_spec d (2 * m)) as [L|L]; symmetry.
  - apply (Z.div_unique_pos _ _ _ (2 * m - d)); nia.
  - apply (Z.div_unique_pos _ _ _ (2 * m + d)); nia.
Qed.

Lemma star_count_half_up (r : Q) :
  (0 <= r)%Q -> Z.of_nat (star_count r) = Qfloor (r + (1 # 2)).
Proof.
  destruct r as [n d]. intros H. unfold Qle in H. simpl in H.
  assert (Hn : 0 <= n) by lia. unfold star_count, frac.
  assert (F : Qfloor (n # d) = n / Zpos d) by reflexivity.
  assert (G : Qfloor ((n # d) + (1 # 2)) = (2 * n + Zpos d) / (2 * Zpos d)).
  { unfold Qplus. simpl Qnum. simpl Qden. unfold Qfloor.
    f_equal; [lia|]. rewrite Pos2Z.inj_mul. lia. }
  rewrite G, (half_up n (Zpos d)) by lia. rewrite F.
  assert (C : Qle_bool (1 # 2) ((n # d) - inject_Z (n / Zpos d))
              = (Zpos d <=? 2 * (n mod Zpos d))).
  { unfold Qle_bool, Qminus, Qplus, Qopp, inject_Z. simpl Qnum. simpl Qden.
    pose proof (Z.div_mod n (Zpos d) ltac:(lia)) as E.
    destruct (Z.leb_spec (Zpos d) (2 * (n mod Zpos d)));
      [apply Z.leb_le | apply Z.leb_gt]; rewrite ?Pos2Z.inj_mul; nia. }
  rewrite C. assert (0 <= n / Zpos d) by (apply Z.div_pos; lia).
  destruct (Zpos d <=? 2 * (n mod Zpos d)); lia.
Qed.

(** X13.  For a rating between 0 and 5 the number of stars is the rating
    rounded to the nearest integer, a half being rounded up, and it is at
    most five. *)
Theorem stars_round_half_up (r : Q) :
  (0 <= r)%Q -> (r <= 5)%Q ->
  exists n,
    stars_of r = Normal (List.repeat star n)
    /\ Z.of_nat n = Qfloor (r + (1 # 2))
    /\ (n <= 5)%nat.
Proof.
  intros H0 H5. exists (star_count r).
  assert (B : Qle_bool 0 r = true) by now apply Qle_bool_iff.
  split; [now apply stars_of_nonneg|].
  pose proof (star_count_half_up r H0) as E. split; [exact E|].
  assert (L : Qfloor (r + (1 # 2)) <= Qfloor (11 # 2)).
  { apply Qfloor_resp_le. setoid_replace (11 # 2)%Q with (5 + (1 # 2))%Q by reflexivity.
    now apply Qplus_le_l. }
  change (Qfloor (11 # 2)) with 5 in L. lia.
Qed.

Lemma stars_round_half_up_witness :
  exists n,
    stars_of (45 # 10) = Normal (List.repeat star n)
    /\ Z.of_nat n = Qfloor ((45 # 10) + (1 # 2))
    /\ (n <= 5)%nat.
Proof. apply (stars_round_half_up (45 # 10)); discriminate. Defined.



Lemma digits_small (k : N) : (k < 10)%N -> digits k = [(48 + k)%N].
Proof.
  intros H. rewrite digits_eq. destruct (N.ltb_spec k 10); [reflexivity | lia].
Qed.

(** X15.  For a rating [r] between 0 and 5 the card prints the rating as
    one digit, a point and one digit: the digits of the integer [n] nearest
    to [10 r] (the larger one on a tie), which is at most 50. *)
Theorem printed_rating (course : Recommendation) (index : Z) (card : Card) (r : Q) :
  createCourseCard course index = Normal card ->
  rating course = Some r -> (0 <= r)%Q -> (r <= 5)%Q ->
  exists n : Z,
    0 <= n <= 50
    /\ (inject_Z n - (1 # 2) <= r * 10)%Q
    /\ (r * 10 < inject_Z n + (1 # 2))%Q
    /\ card_rating card
       = [(48 + Z.to_N (n / 10))%N; 46%N; (48 + Z.to_N (n mod 10))%N].
Proof.
  intros C R H0 H5.
  assert (X : (rating_or_zero (rating course) == r)%Q).
  { rewrite R. simpl. destruct (Qeq_bool r 0) eqn:E; [|reflexivity].
    apply Qeq_bool_iff in E. now symmetry. }
  unfold createCourseCard in C.
  destruct (stars_of (rating_or_zero (rating course))); [|discriminate C].
  injection C as <-. cbn [card_rating]. unfold toFixed1.
  set (n := Qfloor (rating_or_zero (rating course) * 10 + (1 # 2))).
  assert (N : n = Qfloor (r * 10 + (1 # 2))).
  { subst n. apply Qfloor_comp. now rewrite X. }
  pose proof (Qfloor_le (r * 10 + (1 # 2))) as L.
  pose proof (Qlt_floor (r * 10 + (1 # 2))) as U.
  rewrite <- N in L, U. rewrite inject_Z_plus in U.
  change (inject_Z 1) with 1%Q in U.
  assert (B0 : 0 <= n).
  { rewrite N. change 0 with (Qfloor 0). apply Qfloor_resp_le. lra. }
  assert (B5 : n <= 50).
  { rewrite N. change 50 with (Qfloor (101 # 2)). apply Qfloor_resp_le. lra. }
  exists n. split; [lia|]. split; [lra|]. split; [lra|].
  clearbody n. clear L U N.
  assert (D1 : 0 <= n / 10 < 10) by lia.
  assert (D2 : 0 <= n mod 10 < 10) by lia.
  rewrite (digits_small (Z.to_N (n / 10))) by lia.
  rewrite (digits_small (Z.to_N (n mod 10))) by lia.
  reflexivity.
Qed.

Lemma printed_rating_witness :
  exists n : Z,
    0 <= n <= 50
    /\ (inject_Z n - (1 # 2) <= (47 # 10) * 10)%Q
    /\ ((47 # 10) * 10 < inject_Z n + (1 # 2))%Q
    /\ toFixed1 (47 # 10)
       = [(48 + Z.to_N (n / 10))%N; 46%N; (48 + Z.to_N (n mod 10))%N].
Proof.
  destruct (createCourseCard sample_course 0) as [card|e] eqn:C;
    [|discriminate C].
  destruct (printed_rating sample_course 0 card (47 # 10) C eq_refl)
    as (n & B & L & U & T); [discriminate | discriminate |].
  exists n. repeat split; try assumption; try lia.
  rewrite <- T. vm_compute in C. injection C as <-. reflexivity.
Defined.

(** ** More on the thousands separators *)

Lemma digit_not_comma (c : N) : JSON.is_digit c = true -> N.eqb c comma = false.
Proof.
  unfold JSON.is_digit, comma. intros H. apply andb_true_iff in H as [H _].
  apply N.leb_le in H. apply N.eqb_neq. lia.
Qed.

(** The pattern matches neither before nor after a minus sign at the head
    of the text. *)
Lemma insert_commas_minus (s : jsstring) :
  insert_commas None (45%N :: s) = 45%N :: insert_commas None s.
Proof.
  assert (L : lookahead (45%N :: s) = false)
    by (destruct s as [|a [|b r]]; reflexivity).
  cbn [insert_commas]. unfold matches_here at 1. rewrite L, andb_false_r.
  cbn [app]. f_equal. destruct s; reflexivity.
Qed.

(** The replacement only inserts commas. *)
Lemma strip_commas_insert (s : jsstring) (prev : option N) :
  strip_commas (insert_commas prev s) = strip_commas s.
Proof.
  revert prev. induction s as [|c s IH]; intros prev.
  - cbn [insert_commas]. now destruct (matches_here prev []).
  - cbn [insert_commas]. unfold strip_commas in *. rewrite filter_app.
    cbn [filter]. rewrite (IH (Some c)).
    destruct (matches_here prev (c :: s)); reflexivity.
Qed.

Lemma strip_commas_none (s : jsstring) :
  forallb JSON.is_digit s = true -> strip_commas s = s.
Proof.
  induction s as [|c s IH]; [reflexivity|]. cbn [forallb]. intros H.
  apply andb_true_iff in H as [Hc Hs]. unfold strip_commas in *.
  cbn [filter]. rewrite (digit_not_comma c Hc). cbn [negb]. now rewrite (IH Hs).
Qed.

Lemma formatNumber_negative_eq (n : Z) :
  n < 0 -> formatNumber n = 45%N :: formatNumber (- n).
Proof.
  intros H. unfold formatNumber, toString.
  destruct (Z.ltb_spec n 0) as [_|]; [|lia].
  destruct (Z.ltb_spec (- n) 0) as [|_]; [lia|].
  apply insert_commas_minus.
Qed.

(** Below [2^53] in magnitude the printed number has no comma of its own,
    and [formatNumber] without its commas is the printed number. *)
Lemma strip_commas_formatNumber (n : Z) :
  - two53 < n < two53 -> strip_commas (formatNumber n) = toString n.
Proof.
  intros H. unfold formatNumber. rewrite strip_commas_insert.
  destruct (Z.ltb_spec n 0) as [L|G].
  - rewrite toString_safe_negative by lia.
    unfold strip_commas. cbn [filter]. change (N.eqb 45 comma) with false.
    cbn [negb]. f_equal. apply strip_commas_none, digits_all_digits.
  - rewrite toString_safe by lia. apply strip_commas_none, digits_all_digits.
Qed.

(** X16.  [formatNumber] only inserts commas: without its commas the result
    is the printed number without its commas, for every integer.  For an
    integer of magnitude below [2^53] the printed number has no comma, so
    the digits and their order are kept, and for a non-negative one they
    read back as the number. *)
Theorem formatNumber_keeps_digits (n : Z) :
  strip_commas (formatNumber n) = strip_commas (toString n)
  /\ (- two53 < n < two53 -> strip_commas (formatNumber n) = toString n)
  /\ (0 <= n < two53 ->
      decimal_value (strip_commas (formatNumber n)) = Z.to_N n).
Proof.
  split; [apply strip_commas_insert|].
  split; [apply strip_commas_formatNumber|].
  intros H. rewrite strip_commas_formatNumber by lia.
  rewrite toString_safe by exact H. apply decimal_value_digits.
Qed.

Lemma formatNumber_keeps_digits_witness :
  strip_commas (formatNumber 1234567) = toString 1234567
  /\ decimal_value (strip_commas (formatNumber 1234567)) = 1234567%N.
Proof.
  split.
  - apply (proj1 (proj2 (formatNumber_keeps_digits 1234567))).
    unfold two53. lia.
  - apply (proj2 (proj2 (formatNumber_keeps_digits 1234567))).
    unfold two53. lia.
Defined.

(** X17.  On a negative integer [formatNumber] gives the minus sign
    followed by what it gives on the absolute value: no comma stands next
    to the sign.  Above [-2^53] that is the minus sign followed by the
    digits of the absolute value grouped by three, e.g. -123456 gives
    "-123,456". *)
Theorem formatNumber_negative (n : Z) :
  n < 0 ->
  formatNumber n = 45%N :: formatNumber (- n)
  /\ (- two53 < n ->
      formatNumber n = 45%N :: with_separators (digits (Z.to_N (- n)))).
Proof.
  intros H. split; [now apply formatNumber_negative_eq|].
  intros B. rewrite (formatNumber_negative_eq n H). f_equal.
  unfold formatNumber. rewrite toString_safe by lia.
  apply insert_commas_number, digits_all_digits.
Qed.

Lemma formatNumber_negative_witness :
  formatNumber (-123456) = lit "-123,456"
  /\ formatNumber (-123456) = 45%N :: with_separators (digits 123456).
Proof.
  split.
  - apply (proj1 (formatNumber_negative (-123456) eq_refl)).
  - apply (proj2 (formatNumber_negative (-123456) eq_refl)). reflexivity.
Defined.

(** ** More on the sources *)

Section MoreSources.

Lemma fuel_for_S (text : jsstring) :
  JSON.fuel_for text = S (2 * List.length text + 1).
Proof. unfold JSON.fuel_for. lia. Qed.

Lemma json_start_false (c : N) :
  json_start c = false ->
  JSON.is_ws c = false /\ N.eqb c 123 = false /\ N.eqb c 91 = false
  /\ N.eqb c 34 = false /\ N.eqb c 39 = false /\ N.eqb c 116 = false
  /\ N.eqb c 102 = false /\ N.eqb c 110 = false /\ N.eqb c 45 = false
  /\ JSON.is_digit c = false.
Proof.
  unfold json_start. intros H.
  apply orb_false_iff in H as [H H9]. apply orb_false_iff in H as [H H8].
  apply orb_false_iff in H as [H H7]. apply orb_false_iff in H as [H H6].
  apply orb_false_iff in H as [H H5]. apply orb_false_iff in H as [H H4].
  apply orb_false_iff in H as [H H3]. apply orb_false_iff in H as [H H2].
  apply orb_false_iff in H as [H H1]. now repeat split.
Qed.

(** A text that starts with a character with which no JSON value starts
    is refused. *)
Lemma parse_bad_start (c : N) (s : jsstring) :
  json_start c = false -> JSON.parse (c :: s) = Throw SyntaxError.
Proof.
  intros H.
  destruct (json_start_false c H)
    as (W & E1 & E2 & E3 & _ & E5 & E6 & E7 & E8 & D).
  assert (Z0 : N.eqb c 48 = false).
  { apply N.eqb_neq. intros ->. discriminate D. }
  unfold JSON.parse, JSON.parse_text. rewrite fuel_for_S.
  cbn [JSON.skip_ws]. rewrite W. cbn [JSON.parse_value].
  rewrite E1, E2, E3, E5, E6, E7.
  unfold JSON.number, JSON.number_int. rewrite E8, Z0, D. reflexivity.
Qed.

Lemma parse_plain_address (c : N) (s : jsstring) :
  json_start c = false ->
  JSON.parse (replace_g apostrophe [dquote] (c :: s)) = Throw SyntaxError.
Proof.
  intros H.
  assert (A : N.eqb c apostrophe = false) by apply (json_start_false c H).
  cbn [replace_g]. rewrite A. apply (parse_bad_start c _ H).
Qed.

Variables pre post : jsstring.
Hypothesis pre_ws : forallb JSON.is_ws pre = true.
Hypothesis post_ws : forallb JSON.is_ws post = true.

(** A list literal written with double quotes has no single quote to
    turn. *)
Lemma requote_double (l : list jsstring) :
  forallb (forallb plain) l = true ->
  replace_g apostrophe [dquote] (encode_seq dquote pre post l)
  = encode_seq dquote pre post l.
Proof.
  intros H.
  assert (Q : forall u, forallb plain u = true ->
              replace_g apostrophe [dquote] (quoted dquote u) = quoted dquote u).
  { intros u Hu. unfold quoted.
    change (dquote :: u ++ [dquote]) with ([dquote] ++ u ++ [dquote]).
    rewrite !replace_g_app, (replace_g_absent _ _ u (plain_no_apostrophe u Hu)).
    reflexivity. }
  assert (S : replace_g apostrophe [dquote] (pre ++ comma :: post)
              = pre ++ comma :: post).
  { apply replace_g_absent. rewrite forallb_app. cbn [forallb].
    now rewrite (ws_no_apostrophe pre pre_ws), (ws_no_apostrophe post post_ws). }
  assert (J : replace_g apostrophe [dquote]
                (join (pre ++ comma :: post) (map (quoted dquote) l))
              = join (pre ++ comma :: post) (map (quoted dquote) l)).
  { induction l as [|u l IH]; [reflexivity|]. cbn [forallb] in H.
    apply andb_true_iff in H as [Hu Hl]. specialize (IH Hl).
    destruct l as [|v l]; [now apply Q|].
    change (map (quoted dquote) (u :: v :: l))
      with (quoted dquote u :: map (quoted dquote) (v :: l)).
    change (join (pre ++ comma :: post)
              (quoted dquote u :: map (quoted dquote) (v :: l)))
      with (quoted dquote u ++ (pre ++ comma :: post)
            ++ join (pre ++ comma :: post) (map (quoted dquote) (v :: l))).
    rewrite (replace_g_app _ _ (quoted dquote u)),
      (replace_g_app _ _ (pre ++ comma :: post)), (Q u Hu), S, IH.
    reflexivity. }
  unfold encode_seq.
  change (91%N :: ?x ++ [93%N]) with ([91%N] ++ x ++ [93%N]).
  rewrite !replace_g_app, J. reflexivity.
Qed.

End MoreSources.

(** X18.  A sources string that starts with a character with which no JSON
    text starts, such as the "h" of an address, is linked as it is: the
    decoding fails and the markup has the whole string in its [href].  The
    host reads the whole string as the target when it holds no double
    quote, no ampersand, no carriage return and no NUL. *)
Theorem plain_address_is_linked (c : N) (s : jsstring) :
  json_start c = false ->
  sourceLinks (Some (SourcesStr (c :: s))) = Some (anchor (c :: s))
  /\ (href_safe (c :: s) = true -> href_of (anchor (c :: s)) = Some (c :: s)).
Proof.
  intros H. split; [|apply href_of_anchor].
  apply (sourceLinks_not_json (c :: s) SyntaxError); [discriminate|].
  now apply parse_plain_address.
Qed.

Lemma plain_address_is_linked_witness :
  sourceLinks (Some (SourcesStr (lit "https://example.org/course")))
  = Some (anchor (lit "https://example.org/course"))
  /\ href_of (anchor (lit "https://example.org/course"))
     = Some (lit "https://example.org/course").
Proof.
  destruct (plain_address_is_linked 104%N (lit "ttps://example.org/course")
              eq_refl) as [L H].
  split; [exact L | exact (H eq_refl)].
Defined.

(** X19.  A sources string that is a JSON list literal written with double
    quotes, whose strings hold no quote of either kind, no reverse solidus
    and no control character, is decoded as well: the markup links its
    first entry, and the host reads that entry as the target when it holds
    no ampersand. *)
Theorem json_list_is_decoded (pre post first : jsstring) (rest : list jsstring) :
  forallb JSON.is_ws pre = true -> forallb JSON.is_ws post = true ->
  forallb (forallb plain) (first :: rest) = true ->
  sourceLinks (Some (SourcesStr (encode_seq dquote pre post (first :: rest))))
  = Some (anchor first)
  /\ (forallb (fun c => negb (N.eqb c 38)) first = true ->
      href_of (anchor first) = Some first).
Proof.
  intros Hpre Hpost Hp. split.
  - rewrite (sourceLinks_decoded _ (JSON.Str first) (map JSON.Str rest));
      [reflexivity | discriminate |].
    rewrite (requote_double pre post Hpre Hpost _ Hp).
    now rewrite (parse_encode_seq pre post Hpre Hpost _ Hp) by discriminate.
  - intros A. apply href_of_anchor, plain_href_safe; [|exact A].
    cbn [forallb] in Hp. now apply andb_true_iff in Hp as [Hp _].
Qed.

Lemma json_list_is_decoded_witness :
  sourceLinks (Some (SourcesStr (91 :: 34 :: lit "http://a" ++ 34 :: 44 :: 32
                                   :: 34 :: lit "http://b" ++ [34; 93])%N))
  = Some (anchor (lit "http://a"))
  /\ href_of (anchor (lit "http://a")) = Some (lit "http://a").
Proof.
  destruct (json_list_is_decoded [] [space] (lit "http://a") [lit "http://b"]
              eq_refl eq_refl eq_refl) as [L H].
  split; [exact L | exact (H eq_refl)].
Defined.

(** X20.  A course of which the model has the card (rating in range) gets
    a card that shows the enrolled count only when it is positive, and what
    it shows is [formatNumber] of the count: for a count below [2^53] it
    reads back as that count once the commas are taken out.  A count that
    is absent, zero or negative is not shown. *)
Theorem enrolled_reads_back (course : Recommendation) (index : Z) :
  card_modelled course = true ->
  exists card,
    createCourseCard course index = Normal card
    /\ match card_enrolled card with
       | Some shown_text =>
           exists n, enrolled course = Some n /\ 0 < n
                     /\ shown_text = formatNumber n
                     /\ (n < two53 ->
                         strip_commas shown_text = toString n
                         /\ decimal_value (strip_commas shown_text) = Z.to_N n)
       | None =>
           enrolled course = None
           \/ exists n, enrolled course = Some n /\ n <= 0
       end.
Proof.
  intros M.
  destruct (createCourseCard_modelled course index M) as (card & _ & E & _).
  exists card. split; [exact E|]. revert E.
  unfold createCourseCard. destruct (stars_of _); [|discriminate].
  intros H. injection H as <-. cbn [card_enrolled].
  destruct (enrolled course) as [n|]; [|now left].
  destruct (Z.gtb_spec n 0) as [G|L].
  - exists n. split; [reflexivity|]. split; [lia|]. split; [reflexivity|].
    intros B. rewrite strip_commas_formatNumber by (unfold two53 in *; lia).
    split; [reflexivity|]. rewrite toString_safe by lia.
    apply decimal_value_digits.
  - right. now exists n.
Qed.

Lemma enrolled_reads_back_witness :
  exists card,
    createCourseCard sample_course 0 = Normal card
    /\ card_enrolled card = Some (lit "1,234,567")
    /\ decimal_value (strip_commas (lit "1,234,567")) = 1234567%N.
Proof.
  destruct (enrolled_reads_back sample_course 0 eq_refl) as (card & C & H).
  exists card. split; [exact C|].
  vm_compute in C. injection C as <-. cbn [card_enrolled] in H.
  destruct H as (n & E & _ & F & R).
  cbn [enrolled sample_course] in E. injection E as <-.
  split; [reflexivity|]. apply R. reflexivity.
Defined.
